(** * ConfigResolver (src/ConfigResolver.ts) : a shallow embedding

    The TypeScript class [ConfigResolver] merges three layers of formatter
    options: the configuration prettier discovers on disk, the editor's own
    settings and the per-request range.  The embedding keeps the shape of the
    source:

    - a JavaScript object is a finite map from property names to values
      ([gmap string JsValue]); object spread is a left-biased union read from
      right to left;
    - objects live in a store and are passed by reference ([loc]), so that
      the property assignments on [vsOpts] are real writes;
    - [async] methods are computations in a state-and-exception monad: a
      resolved promise is [Normal], a rejected one is [Throw];
    - the logging sink is the list of lines it has received;
    - [prettier.resolveConfig] is a parameter of the class: any function
      from the file path and the discovery options to a configuration,
      [null] or a rejection.

    What a rejection carries is an [Error], as [IResolveConfigResult]
    declares; such an object is truthy.  Option values are primitives and
    are only passed through: no arithmetic is done on a number. *)

From Stdlib Require Import ZArith NArith String Ascii List Lia.
From stdpp Require Import base option list gmap strings fin_maps.

Local Open Scope string_scope.
Local Open Scope list_scope.

(** ** JavaScript values and objects *)

Module Js.

(** The primitive values that prettier option fields hold. *)
Inductive JsValue : Type :=
| VUndefined
| VNull
| VBool (b : bool)
| VNum (n : Z)
| VStr (s : string).

#[global] Instance JsValue_eq_dec : EqDecision JsValue.
Proof. solve_decision. Defined.

(** [Error] objects: what a rejected promise carries. *)
Record Error : Type := mkError { err_name : string; err_message : string }.

(** Own enumerable properties of an object. *)
Abbreviation Obj := (gmap string JsValue).

(** [o.k] : reading a property that the object does not own gives
    [undefined]. *)
Definition get (o : Obj) (k : string) : JsValue :=
  default VUndefined (o !! k).

(** [{ ...a, ...b }] : properties of [b] override those of [a]. *)
Definition spread2 (a b : Obj) : Obj := b ∪ a.

(** [{ ...l1, ...l2, ..., ...ln }], layers listed in source order. *)
Definition spread (layers : list Obj) : Obj :=
  fold_left spread2 layers ∅.

(** References to objects of the store. *)
Abbreviation loc := nat.

(** The store of objects together with the lines received by the logging
    service. *)
Record State : Type := mkState { heap : list Obj; log : list string }.

(** Outcome of awaiting a promise or of running a statement. *)
Inductive Completion (A : Type) : Type :=
| Normal (a : A)
| Throw (e : Error).
Arguments Normal {A} a.
Arguments Throw {A} e.

Definition M (A : Type) : Type := State -> Completion A * State.

Definition ret {A} (a : A) : M A := fun st => (Normal a, st).

Definition throw {A} (e : Error) : M A := fun st => (Throw e, st).

Definition bind {A B} (m : M A) (k : A -> M B) : M B :=
  fun st =>
    match m st with
    | (Normal a, st') => k a st'
    | (Throw e, st') => (Throw e, st')
    end.

(** [try { m } catch (error) { h error }] *)
Definition try_catch {A} (m : M A) (h : Error -> M A) : M A :=
  fun st =>
    match m st with
    | (Normal a, st') => (Normal a, st')
    | (Throw e, st') => h e st'
    end.

(** The object a reference points to. *)
Definition obj_at (st : State) (l : loc) : Obj :=
  default ∅ (heap st !! l).

(** An object literal evaluated into a new object of the store. *)
Definition alloc (o : Obj) : M loc :=
  fun st => (Normal (length (heap st)),
             mkState (heap st ++ [o]) (log st)).

(** [l.k] *)
Definition getProp (l : loc) (k : string) : M JsValue :=
  fun st => (Normal (get (obj_at st l) k), st).

(** [l.k = v] *)
Definition setProp (l : loc) (k : string) (v : JsValue) : M unit :=
  fun st => (Normal tt,
             mkState (<[l := <[k := v]> (obj_at st l)]> (heap st)) (log st)).

(** The own properties of [l], as an object spread enumerates them. *)
Definition ownProps (l : loc) : M Obj :=
  fun st => (Normal (obj_at st l), st).

End Js.

Export Js.

Declare Scope js_scope.
Delimit Scope js_scope with js.
Notation "'const' x '⇐' e ';' k" := (bind e (fun x => k))
  (at level 10, x name, e at level 100, k at level 200,
   format "'[v' 'const'  x  '⇐'  e ';' '/' k ']'") : js_scope.
Notation "'exec' e ';' k" := (bind e (fun _ => k))
  (at level 10, e at level 100, k at level 200,
   format "'[v' 'exec'  e ';' '/' k ']'") : js_scope.
Local Open Scope js_scope.

(** ** The [semver] package

    ConfigResolver.ts imports [semver] (line 2) and calls [semver.gte] once,
    in strict (non-loose) mode.  The package is a dependency: its source is
    not part of src/.  Strings are byte strings here, so [trim] removes
    ASCII white space only. *)

Module Semver.

Inductive Identifier : Type :=
| NumId (n : N)
| AlphaId (s : string).

Record SemVer : Type := mkSemVer {
  major : N;
  minor : N;
  patch : N;
  prerelease : list Identifier;
  build : list string
}.

Definition MAX_LENGTH : nat := 256.
Definition MAX_SAFE_INTEGER : N := 9007199254740991%N.

Definition is_digit (c : ascii) : bool :=
  let n := N_of_ascii c in ((48 <=? n) && (n <=? 57))%N.

Definition is_letter (c : ascii) : bool :=
  let n := N_of_ascii c in
  (((65 <=? n) && (n <=? 90)) || ((97 <=? n) && (n <=? 122)))%N.

(** [[0-9A-Za-z-]] *)
Definition is_idchar (c : ascii) : bool :=
  is_digit c || is_letter c || Ascii.eqb c "-"%char.

Definition is_space (c : ascii) : bool :=
  let n := N_of_ascii c in (((9 <=? n) && (n <=? 13)) || (n =? 32))%N.

Fixpoint all_chars (p : ascii -> bool) (s : string) : bool :=
  match s with
  | EmptyString => true
  | String c r => p c && all_chars p r
  end.

Fixpoint drop_spaces (s : string) : string :=
  match s with
  | String c r => if is_space c then drop_spaces r else s
  | EmptyString => EmptyString
  end.

Fixpoint rev_string (s acc : string) : string :=
  match s with
  | EmptyString => acc
  | String c r => rev_string r (String c acc)
  end.

(** [s.trim()] *)
Definition trim (s : string) : string :=
  rev_string (drop_spaces (rev_string (drop_spaces s) "")) "".

(** [s.split(sep)] for a one-character separator. *)
Fixpoint split_on (sep : ascii) (s : string) : list string :=
  match s with
  | EmptyString => [EmptyString]
  | String c r =>
      if Ascii.eqb c sep then EmptyString :: split_on sep r
      else match split_on sep r with
           | h :: t => String c h :: t
           | [] => [String c EmptyString]
           end
  end.

(** The part before the first [sep] and, when there is one, the part
    after it. *)
Fixpoint break_at (sep : ascii) (s : string) : string * option string :=
  match s with
  | EmptyString => (EmptyString, None)
  | String c r =>
      if Ascii.eqb c sep then (EmptyString, Some r)
      else let (h, t) := break_at sep r in (String c h, t)
  end.

Fixpoint digits_value (s : string) (acc : N) : N :=
  match s with
  | EmptyString => acc
  | String c r => digits_value r (10 * acc + (N_of_ascii c - 48))%N
  end.

(** [0|[1-9]\d*] *)
Definition numeric_identifier (s : string) : option N :=
  match s with
  | EmptyString => None
  | String c r =>
      if all_chars is_digit s && (negb (Ascii.eqb c "0"%char) || String.eqb r "")
      then Some (digits_value s 0%N)
      else None
  end.

(** One of the three numbers of the main version; the constructor rejects
    a number above [MAX_SAFE_INTEGER]. *)
Definition main_number (s : string) : option N :=
  n ← numeric_identifier s;
  if (n <=? MAX_SAFE_INTEGER)%N then Some n else None.

(** [0|[1-9]\d*|\d*[a-zA-Z-][a-zA-Z0-9-]*], read as the constructor stores
    it: a number when it is all digits, the string otherwise. *)
Definition prerelease_identifier (s : string) : option Identifier :=
  match s with
  | EmptyString => None
  | String _ _ =>
      if all_chars is_digit s then NumId <$> numeric_identifier s
      else if all_chars is_idchar s then Some (AlphaId s)
      else None
  end.

(** [[0-9A-Za-z-]+] *)
Definition build_identifier (s : string) : option string :=
  match s with
  | EmptyString => None
  | String _ _ => if all_chars is_idchar s then Some s else None
  end.

Definition strip_v (s : string) : string :=
  match s with
  | String "v"%char r => r
  | _ => s
  end.

(** Modelled from the spec: the constructor [new SemVer(version)] of the
    [semver] package, which is not under src/.  The spec speaks of
    "standard semantic-version ordering: major.minor.patch, pre-release
    tags sort below release"; the grammar is the one of semantic
    versions, [major.minor.patch[-prerelease][+build]], read the way the
    package reads it in strict mode: the string is trimmed, one leading
    [v] is accepted, numbers carry no leading zero.  [None] stands for
    the [TypeError] the constructor raises on any other string. *)
Definition parse (version : string) : option SemVer :=
  if (MAX_LENGTH <? String.length version)%nat then None
  else
    let (rest, build_part) := break_at "+"%char (strip_v (trim version)) in
    let (main, pre_part) := break_at "-"%char rest in
    match split_on "."%char main with
    | [a; b; c] =>
        ma ← main_number a;
        mi ← main_number b;
        pa ← main_number c;
        pre ← match pre_part with
              | None => Some []
              | Some p => mapM prerelease_identifier (split_on "."%char p)
              end;
        bld ← match build_part with
              | None => Some []
              | Some p => mapM build_identifier (split_on "."%char p)
              end;
        Some (mkSemVer ma mi pa pre bld)
    | _ => None
    end.

Definition then_compare (c d : comparison) : comparison :=
  match c with Eq => d | _ => c end.

(** [compareIdentifiers]: numbers before strings, numbers by value,
    strings by code unit. *)
Definition compareIdentifiers (a b : Identifier) : comparison :=
  match a, b with
  | NumId x, NumId y => (x ?= y)%N
  | NumId _, AlphaId _ => Lt
  | AlphaId _, NumId _ => Gt
  | AlphaId x, AlphaId y => String.compare x y
  end.

Fixpoint compareIdentifierLists (a b : list Identifier) : comparison :=
  match a, b with
  | [], [] => Eq
  | _ :: _, [] => Gt
  | [], _ :: _ => Lt
  | x :: a', y :: b' =>
      then_compare (compareIdentifiers x y) (compareIdentifierLists a' b')
  end.

Definition compareMain (a b : SemVer) : comparison :=
  then_compare (major a ?= major b)%N
    (then_compare (minor a ?= minor b)%N (patch a ?= patch b)%N).

(** A version with a pre-release tag sorts below the same version
    without one. *)
Definition comparePre (a b : SemVer) : comparison :=
  match prerelease a, prerelease b with
  | _ :: _, [] => Lt
  | [], _ :: _ => Gt
  | [], [] => Eq
  | pa, pb => compareIdentifierLists pa pb
  end.

(** Modelled from the spec: [SemVer.compare] of the [semver] package,
    "major.minor.patch, pre-release tags sort below release". *)
Definition compare (a b : SemVer) : comparison :=
  then_compare (compareMain a b) (comparePre a b).

Definition invalid_version (version : string) : Error :=
  mkError "TypeError" (String.append "Invalid Version: " version).

(** Modelled from the spec: [semver.gte(a, b)] of the [semver] package,
    the "greater-than-or-equal comparison" of the spec:
    [compare(a, b) >= 0] once both strings went through the constructor,
    whose [TypeError] it lets through. *)
Definition gte (a b : string) : Completion bool :=
  match parse a with
  | None => Throw (invalid_version a)
  | Some va =>
      match parse b with
      | None => Throw (invalid_version b)
      | Some vb =>
          Normal (match compare va vb with Lt => false | _ => true end)
      end
  end.

End Semver.

(** ** The class [ConfigResolver] *)

(** [{ config: prettier.Options | null; error?: Error }] ; [null] and an
    absent [error] are [None]. *)
Record IResolveConfigResult : Type := mkResolved {
  config : option Obj;
  error : option Error
}.

(** [{ options?: Partial<prettier.Options>; error?: Error }], the value
    [getPrettierOptions] resolves to.  [options] refers to the merged
    object. *)
Module Result.
Record t : Type := mk { options : option loc; error : option Error }.
End Result.

(** A value of the interface [RangeFormattingOptions] and the object it is
    at run time.  Offsets are only passed through. *)
Record RangeFormattingOptions : Type := mkRange {
  rangeStart : Z;
  rangeEnd : Z
}.

Definition range_object (r : RangeFormattingOptions) : Obj :=
  <["rangeEnd" := VNum (rangeEnd r)]>
    (<["rangeStart" := VNum (rangeStart r)]> ∅).

Definition NO_LOCAL_CONFIGURATION : string :=
  "No local configuration (i.e. .prettierrc or .editorconfig) detected, falling back to VS Code configuration".

Definition LOCAL_CONFIGURATION : string :=
  "Detected local configuration (i.e. .prettierrc or .editorconfig), VS Code configuration will not be used".

(** Modelled from the spec: [this.loggingService.logInfo(message)] of
    ./LoggingService, which is not under src/.  The spec gives the sink
    "no contract beyond accepts a string" and says it "never fails
    observably": the line is appended to the log. *)
Definition logInfo (message : string) : M unit :=
  fun st => (Normal tt, mkState (heap st) (log st ++ [message])).

(** [l.k = e] *)
Definition assign (l : loc) (k : string) (e : M JsValue) : M unit :=
  const v ⇐ e;
  setProp l k v.

(** A call to a function of a package: its completion, the store
    untouched. *)
Definition call {A} (c : Completion A) : M A := fun st => (c, st).

(** [e === null] for a configuration. *)
Definition is_null (c : option Obj) : bool :=
  match c with None => true | Some _ => false end.

(** [c || {}] *)
Definition or_empty (c : option Obj) : Obj :=
  match c with
  | Some o => o
  | None => ∅
  end.

Section ConfigResolver.

(** [prettier.resolveConfig(filePath, options)], awaited: the discovered
    configuration, [null] ([None]) when there is none, or a rejection.
    It is given the properties of the options object, which it reads and
    does not write. *)
Variable prettier_resolveConfig :
  string -> option Obj -> Completion (option Obj).

Definition await_prettier_resolveConfig
    (filePath : string) (options : option loc) : M (option Obj) :=
  fun st => (prettier_resolveConfig filePath (obj_at st <$> options), st).

(** lines 104-114 *)
Definition resolveConfig (filePath : string) (options : option loc)
  : M IResolveConfigResult :=
  try_catch
    (const config ⇐ await_prettier_resolveConfig filePath options;
     ret (mkResolved config None))
    (fun error => ret (mkResolved None (Some error))).

(** lines 91-97.  An [Error] is an object, hence truthy: [if (error)]
    tests whether the property is there. *)
Definition checkHasPrettierConfig (filePath : string) : M bool :=
  const r ⇐ resolveConfig filePath None;
  match error r with
  | Some error => throw error
  | None => ret (negb (is_null (config r)))
  end.

(** lines 18-85 *)
Definition getPrettierOptions
    (fileName : string)
    (parser : string)
    (vsCodeConfig : loc)
    (prettierVersion : string)
    (resolveConfigOptions : loc)
    (rangeFormattingOptions : option loc)
  : M Result.t :=
  const r ⇐ resolveConfig fileName (Some resolveConfigOptions);
  let configOptions := config r in
  match error r with
  | Some error => ret (Result.mk None (Some error))
  | None =>
    const vsOpts ⇐ alloc ∅;
    let fallbackToVSCodeConfig := is_null configOptions in
    const usePrettierV2Defaults ⇐ call (Semver.gte prettierVersion "2.0.0");
    exec (if fallbackToVSCodeConfig then
      exec assign vsOpts "arrowParens"
        (if usePrettierV2Defaults
         then getProp vsCodeConfig "arrowParens"
         else ret (VStr "avoid"));
      exec assign vsOpts "bracketSpacing"
        (getProp vsCodeConfig "bracketSpacing");
      exec assign vsOpts "endOfLine"
        (if usePrettierV2Defaults
         then getProp vsCodeConfig "endOfLine"
         else ret (VStr "auto"));
      exec assign vsOpts "htmlWhitespaceSensitivity"
        (getProp vsCodeConfig "htmlWhitespaceSensitivity");
      exec assign vsOpts "insertPragma"
        (getProp vsCodeConfig "insertPragma");
      exec assign vsOpts "jsxBracketSameLine"
        (getProp vsCodeConfig "jsxBracketSameLine");
      exec assign vsOpts "jsxSingleQuote"
        (getProp vsCodeConfig "jsxSingleQuote");
      exec assign vsOpts "printWidth"
        (getProp vsCodeConfig "printWidth");
      exec assign vsOpts "proseWrap"
        (getProp vsCodeConfig "proseWrap");
      exec assign vsOpts "quoteProps"
        (getProp vsCodeConfig "quoteProps");
      exec assign vsOpts "requirePragma"
        (getProp vsCodeConfig "requirePragma");
      exec assign vsOpts "semi"
        (getProp vsCodeConfig "semi");
      exec assign vsOpts "singleQuote"
        (getProp vsCodeConfig "singleQuote");
      exec assign vsOpts "tabWidth"
        (getProp vsCodeConfig "tabWidth");
      exec assign vsOpts "trailingComma"
        (if usePrettierV2Defaults
         then getProp vsCodeConfig "trailingComma"
         else ret (VStr "none"));
      exec assign vsOpts "useTabs"
        (getProp vsCodeConfig "useTabs");
      assign vsOpts "vueIndentScriptAndStyle"
        (getProp vsCodeConfig "vueIndentScriptAndStyle")
    else ret tt);
    exec logInfo
      (if fallbackToVSCodeConfig
       then NO_LOCAL_CONFIGURATION
       else LOCAL_CONFIGURATION);
    const editorLayer ⇐
      (if fallbackToVSCodeConfig then ownProps vsOpts else ret ∅);
    const rangeLayer ⇐
      match rangeFormattingOptions with
      | Some range => ownProps range
      | None => ret ∅
      end;
    const options ⇐
      alloc (spread [ editorLayer;
                      <["parser" := VStr parser]>
                        (<["filepath" := VStr fileName]> ∅);
                      rangeLayer;
                      or_empty configOptions ]);
    ret (Result.mk (Some options) None)
  end.

End ConfigResolver.

(** ** Vocabulary of the specification *)

(** The fields copied from the editor settings whatever the version. *)
Definition copied_fields : list string :=
  [ "bracketSpacing"; "htmlWhitespaceSensitivity"; "insertPragma";
    "jsxBracketSameLine"; "jsxSingleQuote"; "printWidth"; "proseWrap";
    "quoteProps"; "requirePragma"; "semi"; "singleQuote"; "tabWidth";
    "useTabs"; "vueIndentScriptAndStyle" ].

(** The version gate table: each gated field with the value it is fixed to
    before prettier 2.0.0. *)
Definition gated_fields : list (string * JsValue) :=
  [ ("arrowParens", VStr "avoid");
    ("trailingComma", VStr "none");
    ("endOfLine", VStr "auto") ].

(** A gated field under the gate table. *)
Definition gated (useNewerDefaults : bool) (editorConfig : Obj)
    (field : string * JsValue) : JsValue :=
  if useNewerDefaults then get editorConfig field.1 else field.2.

(** The object [vsOpts] once lines 42-64 have run, from the editor settings
    [ed]; the innermost insertion is the first assignment. *)
Definition vsOpts_object (v2 : bool) (ed : Obj) : Obj :=
  <["vueIndentScriptAndStyle" := get ed "vueIndentScriptAndStyle"]> (
  <["useTabs" := get ed "useTabs"]> (
  <["trailingComma" := if v2 then get ed "trailingComma" else VStr "none"]> (
  <["tabWidth" := get ed "tabWidth"]> (
  <["singleQuote" := get ed "singleQuote"]> (
  <["semi" := get ed "semi"]> (
  <["requirePragma" := get ed "requirePragma"]> (
  <["quoteProps" := get ed "quoteProps"]> (
  <["proseWrap" := get ed "proseWrap"]> (
  <["printWidth" := get ed "printWidth"]> (
  <["jsxSingleQuote" := get ed "jsxSingleQuote"]> (
  <["jsxBracketSameLine" := get ed "jsxBracketSameLine"]> (
  <["insertPragma" := get ed "insertPragma"]> (
  <["htmlWhitespaceSensitivity" := get ed "htmlWhitespaceSensitivity"]> (
  <["endOfLine" := if v2 then get ed "endOfLine" else VStr "auto"]> (
  <["bracketSpacing" := get ed "bracketSpacing"]> (
  <["arrowParens" := if v2 then get ed "arrowParens" else VStr "avoid"]> ∅
  )))))))))))))))).

(** The literal [{ filepath: fileName, parser }] of lines 75-79. *)
Definition injected (fileName parser : string) : Obj :=
  <["parser" := VStr parser]> (<["filepath" := VStr fileName]> ∅).

(** The properties an optional reference contributes to a spread:
    [...(range || {})]. *)
Definition range_layer (st : State) (range : option loc) : Obj :=
  from_option (obj_at st) ∅ range.

(** The version [2.0.0]. *)
Definition v2_0_0 : Semver.SemVer := Semver.mkSemVer 2 0 0 [] [].

(** [a >= b] in the ordering of semantic versions. *)
Definition version_ge (a b : Semver.SemVer) : bool :=
  match Semver.compare a b with Lt => false | _ => true end.

(** The optional argument [rangeFormattingOptions] refers to an object of
    the interface [RangeFormattingOptions], or is [undefined]. *)
Definition range_argument (st : State) (range : option loc)
    (r : option RangeFormattingOptions) : Prop :=
  match range, r with
  | Some l, Some r => heap st !! l = Some (range_object r)
  | None, None => True
  | _, _ => False
  end.

(** The seventeen properties assigned to [vsOpts] at lines 42-64. *)
Definition editor_fields : list string :=
  map fst gated_fields ++ copied_fields.

(** Every object argument refers to an object of the store. *)
Definition live_arguments (st : State) (vsCodeConfig resolveConfigOptions : loc)
    (rangeFormattingOptions : option loc) : Prop :=
  vsCodeConfig < length (heap st) /\
  resolveConfigOptions < length (heap st) /\
  match rangeFormattingOptions with
  | Some range => range < length (heap st)
  | None => True
  end.

(** ** Sample calls *)

Module Sample.

(** The editor settings [{tabWidth: 2, semi: true, arrowParens: "always"}]. *)
Definition editor : Obj :=
  <["arrowParens" := VStr "always"]>
    (<["semi" := VBool true]> (<["tabWidth" := VNum 2]> ∅)).

Definition discoveryOptions : Obj := <["editorconfig" := VBool true]> ∅.

Definition range : RangeFormattingOptions := mkRange 3 17.

(** A store holding the editor settings at 0, the discovery options at 1
    and a range at 2; nothing logged yet. *)
Definition st0 : State :=
  mkState [editor; discoveryOptions; range_object range] [].

Definition none_found : string -> option Obj -> Completion (option Obj) :=
  fun _ _ => Normal None.

(** A project configuration [{tabWidth: 4, parser: "flow"}]. *)
Definition project : Obj :=
  <["parser" := VStr "flow"]> (<["tabWidth" := VNum 4]> ∅).

Definition found : string -> option Obj -> Completion (option Obj) :=
  fun _ _ => Normal (Some project).

Definition broken : Error := mkError "SyntaxError" "Unexpected token } in JSON".

Definition failing : string -> option Obj -> Completion (option Obj) :=
  fun _ _ => Throw broken.

(** The calls used as examples below. *)
Definition run_fallback_v1 : Completion Result.t * State :=
  getPrettierOptions none_found "a.js" "babel" 0 "1.19.0" 1 (Some 2) st0.

Definition run_fallback_v2 : Completion Result.t * State :=
  getPrettierOptions none_found "a.js" "babel" 0 "2.3.1" 1 (Some 2) st0.

Definition run_found : Completion Result.t * State :=
  getPrettierOptions found "a.js" "babel" 0 "2.3.1" 1 (Some 2) st0.

Definition run_found_bad_version : Completion Result.t * State :=
  getPrettierOptions found "a.js" "babel" 0 "abc" 1 (Some 2) st0.

Definition run_failing : Completion Result.t * State :=
  getPrettierOptions failing "a.js" "babel" 0 "2.3.1" 1 (Some 2) st0.

Definition run_failing_bad_version : Completion Result.t * State :=
  getPrettierOptions failing "a.js" "babel" 0 "abc" 1 (Some 2) st0.

(** A discovery that finds the project configuration only when asked to
    read .editorconfig files. *)
Definition with_editorconfig : string -> option Obj -> Completion (option Obj) :=
  fun _ options =>
    match options with
    | Some o =>
        if bool_decide (o !! "editorconfig" = Some (VBool true))
        then Normal (Some project)
        else Normal None
    | None => Normal None
    end.

(** A range object that carries more than the two offsets. *)
Definition wide_range : Obj :=
  <["filepath" := VStr "b.js"]> (range_object range).

Definition st_wide : State :=
  mkState [editor; discoveryOptions; wide_range] [].

(** A range object that also carries editor fields. *)
Definition wider_range : Obj :=
  <["arrowParens" := VStr "always"]> (<["tabWidth" := VNum 8]> wide_range).

Definition st_wider : State :=
  mkState [editor; discoveryOptions; wider_range] [].

Definition run_fallback_wider : Completion Result.t * State :=
  getPrettierOptions none_found "a.js" "babel" 0 "1.19.0" 1 (Some 2) st_wider.

End Sample.


(** ** Running the monad *)

Section Running.

Context {A B : Type}.

Lemma bind_normal (m : M A) (k : A -> M B) st a st' :
  m st = (Normal a, st') -> bind m k st = k a st'.
Proof. intros H. unfold bind. now rewrite H. Qed.

Lemma bind_bind {C} (m : M A) (f : A -> M B) (g : B -> M C) st :
  bind (bind m f) g st = bind m (fun x => bind (f x) g) st.
Proof. unfold bind. destruct (m st) as [[a | e] st']; reflexivity. Qed.

End Running.

(** ** The store *)

Lemma obj_at_last h lg o : obj_at (mkState (h ++ [o]) lg) (length h) = o.
Proof. unfold obj_at. cbn [heap]. now rewrite list_lookup_middle. Qed.

Lemma obj_at_old h1 h2 lg1 lg2 l :
  l < length h1 ->
  obj_at (mkState (h1 ++ h2) lg1) l = obj_at (mkState h1 lg2) l.
Proof. intros H. unfold obj_at. cbn [heap]. now rewrite lookup_app_l. Qed.

Lemma insert_last (h : list Obj) o o' : <[length h := o']> (h ++ [o]) = h ++ [o'].
Proof.
  replace (length h) with (length h + 0) at 1 by lia.
  now rewrite insert_app_r.
Qed.

Lemma exec_assign_copy {B} h lg o src k k' (K : unit -> M B) :
  src < length h ->
  bind (assign (length h) k (getProp src k')) K (mkState (h ++ [o]) lg)
  = K tt (mkState (h ++ [<[k := get (obj_at (mkState h lg) src) k']> o]) lg).
Proof.
  intros Hsrc. unfold assign, getProp, setProp, bind. cbn [heap log].
  rewrite obj_at_last, insert_last. now rewrite (obj_at_old h [o] lg lg).
Qed.

Lemma exec_assign_const {B} h lg o k v (K : unit -> M B) :
  bind (assign (length h) k (ret v)) K (mkState (h ++ [o]) lg)
  = K tt (mkState (h ++ [<[k := v]> o]) lg).
Proof.
  unfold assign, ret, setProp, bind. cbn [heap log].
  now rewrite obj_at_last, insert_last.
Qed.

(** ** Evaluation of the three methods *)

Section Evaluation.

Variable D : string -> option Obj -> Completion (option Obj).

Lemma resolveConfig_run filePath options st :
  resolveConfig D filePath options st =
  (Normal match D filePath (obj_at st <$> options) with
          | Normal c => mkResolved c None
          | Throw e => mkResolved None (Some e)
          end, st).
Proof.
  unfold resolveConfig, try_catch, bind, await_prettier_resolveConfig, ret.
  destruct (D filePath _); reflexivity.
Qed.

Lemma getPrettierOptions_rejected fileName parser vs version rc range st e :
  D fileName (Some (obj_at st rc)) = Throw e ->
  getPrettierOptions D fileName parser vs version rc range st
  = (Normal (Result.mk None (Some e)), st).
Proof.
  intros HD. unfold getPrettierOptions.
  rewrite (bind_normal _ _ _ _ _ (resolveConfig_run _ _ _)).
  cbn [fmap option_fmap option_map]. rewrite HD. reflexivity.
Qed.

Lemma getPrettierOptions_invalid fileName parser vs version rc range st c e :
  D fileName (Some (obj_at st rc)) = Normal c ->
  Semver.gte version "2.0.0" = Throw e ->
  getPrettierOptions D fileName parser vs version rc range st
  = (Throw e, mkState (heap st ++ [∅]) (log st)).
Proof.
  intros HD Hv. unfold getPrettierOptions.
  rewrite (bind_normal _ _ _ _ _ (resolveConfig_run _ _ _)).
  cbn [fmap option_fmap option_map]. rewrite HD. cbn [error config].
  unfold bind at 1. unfold alloc at 1. unfold bind at 1, call at 1.
  rewrite Hv. reflexivity.
Qed.

Lemma getPrettierOptions_found fileName parser vs version rc range st c b :
  D fileName (Some (obj_at st rc)) = Normal (Some c) ->
  Semver.gte version "2.0.0" = Normal b ->
  let st1 := mkState (heap st ++ [∅]) (log st ++ [LOCAL_CONFIGURATION]) in
  getPrettierOptions D fileName parser vs version rc range st
  = (Normal (Result.mk (Some (S (length (heap st)))) None),
     mkState (heap st1 ++
              [spread [∅; injected fileName parser; range_layer st1 range; c]])
             (log st1)).
Proof.
  intros HD Hv. unfold getPrettierOptions.
  rewrite (bind_normal _ _ _ _ _ (resolveConfig_run _ _ _)).
  cbn [fmap option_fmap option_map]. rewrite HD. cbn [error config is_null].
  unfold bind at 1. unfold alloc at 1. unfold bind at 1, call at 1.
  rewrite Hv.
  unfold bind at 1, ret at 1. unfold bind at 1, logInfo at 1.
  unfold bind at 1, ret at 1. cbn [heap log].
  destruct range as [l|]; unfold bind, ownProps, alloc, ret; cbn [heap log];
    rewrite length_app, Nat.add_1_r; reflexivity.
Qed.

Lemma getPrettierOptions_fallback fileName parser vs version rc range st b :
  D fileName (Some (obj_at st rc)) = Normal None ->
  Semver.gte version "2.0.0" = Normal b ->
  vs < length (heap st) ->
  let st1 := mkState (heap st ++ [vsOpts_object b (obj_at st vs)])
                     (log st ++ [NO_LOCAL_CONFIGURATION]) in
  getPrettierOptions D fileName parser vs version rc range st
  = (Normal (Result.mk (Some (S (length (heap st)))) None),
     mkState (heap st1 ++
              [spread [vsOpts_object b (obj_at st vs);
                       injected fileName parser; range_layer st1 range; ∅]])
             (log st1)).
Proof.
  intros HD Hv Hvs. unfold getPrettierOptions.
  rewrite (bind_normal _ _ _ _ _ (resolveConfig_run _ _ _)).
  cbn [fmap option_fmap option_map]. rewrite HD. cbn [error config is_null].
  unfold bind at 1. unfold alloc at 1. unfold bind at 1, call at 1.
  rewrite Hv. destruct st as [h lg]. cbn [heap log] in *.
  destruct b.
  all: repeat (rewrite ?bind_bind;
               first [ rewrite exec_assign_copy by exact Hvs
                     | rewrite exec_assign_const ]).
  all: unfold bind at 1, logInfo at 1; cbn [heap log].
  all: unfold bind at 1, ownProps at 1; rewrite obj_at_last.
  all: destruct range as [l|]; unfold bind, ownProps, alloc, ret;
    cbn [heap log]; rewrite length_app, Nat.add_1_r; reflexivity.
Qed.

End Evaluation.

(** ** Reading the merged object *)

Lemma lookup_spread4 (a b c d : Obj) k :
  spread [a; b; c; d] !! k =
  match d !! k with
  | Some v => Some v
  | None => match c !! k with
            | Some v => Some v
            | None => match b !! k with
                      | Some v => Some v
                      | None => a !! k
                      end
            end
  end.
Proof.
  unfold spread, spread2. cbn [fold_left].
  rewrite !lookup_union, lookup_empty.
  destruct (d !! k), (c !! k), (b !! k), (a !! k); reflexivity.
Qed.

Lemma obj_at_second h a b lg :
  obj_at (mkState ((h ++ [a]) ++ [b]) lg) (S (length h)) = b.
Proof.
  replace (S (length h)) with (length (h ++ [a])).
  - apply obj_at_last.
  - rewrite length_app. cbn. lia.
Qed.

Lemma range_layer_typed st range rng x lg :
  range_argument st range rng ->
  range_layer (mkState (heap st ++ [x]) lg) range
  = from_option range_object ∅ rng.
Proof.
  destruct range as [l|], rng as [r|];
    unfold range_argument, range_layer; cbn [from_option]; try tauto.
  intros H. unfold obj_at. cbn [heap].
  rewrite lookup_app_l by (eapply lookup_lt_Some; eassumption).
  now rewrite H.
Qed.

Ltac lookup_literal :=
  repeat (rewrite lookup_insert_ne by discriminate);
  first [ apply lookup_insert_eq | apply lookup_empty ].

Lemma range_layer_other rng k :
  k <> "rangeStart" -> k <> "rangeEnd" ->
  from_option range_object ∅ rng !! k = None.
Proof.
  intros H1 H2. destruct rng as [r|]; cbn [from_option]; [| apply lookup_empty].
  unfold range_object.
  rewrite !lookup_insert_ne by congruence. apply lookup_empty.
Qed.

Lemma injected_filepath fileName parser :
  injected fileName parser !! "filepath" = Some (VStr fileName).
Proof. unfold injected. lookup_literal. Qed.

Lemma injected_parser fileName parser :
  injected fileName parser !! "parser" = Some (VStr parser).
Proof. unfold injected. lookup_literal. Qed.

Lemma injected_other fileName parser k :
  k <> "filepath" -> k <> "parser" -> injected fileName parser !! k = None.
Proof.
  intros H1 H2. unfold injected.
  rewrite !lookup_insert_ne by congruence. apply lookup_empty.
Qed.

Lemma vsOpts_object_copied b ed k :
  In k copied_fields -> vsOpts_object b ed !! k = Some (get ed k).
Proof.
  intros H. unfold copied_fields in H. cbn [In] in H.
  repeat (destruct H as [<- | H]; [unfold vsOpts_object; lookup_literal |]).
  destruct H.
Qed.

Lemma vsOpts_object_gated b ed f :
  In f gated_fields -> vsOpts_object b ed !! f.1 = Some (gated b ed f).
Proof.
  intros H. unfold gated_fields in H. cbn [In] in H.
  repeat (destruct H as [<- | H];
          [unfold vsOpts_object, gated; cbn [fst snd];
           destruct b; lookup_literal |]).
  destruct H.
Qed.

Lemma vsOpts_object_filepath b ed : vsOpts_object b ed !! "filepath" = None.
Proof. unfold vsOpts_object. lookup_literal. Qed.

Lemma vsOpts_object_parser b ed : vsOpts_object b ed !! "parser" = None.
Proof. unfold vsOpts_object. lookup_literal. Qed.

(** ** The version gate *)

Lemma parse_2_0_0 : Semver.parse "2.0.0" = Some v2_0_0.
Proof. reflexivity. Qed.

Lemma gte_valid version ver :
  Semver.parse version = Some ver ->
  Semver.gte version "2.0.0" = Normal (version_ge ver v2_0_0).
Proof. intros H. unfold Semver.gte. now rewrite H, parse_2_0_0. Qed.

Lemma gte_invalid version :
  Semver.parse version = None ->
  Semver.gte version "2.0.0" = Throw (Semver.invalid_version version).
Proof. intros H. unfold Semver.gte. now rewrite H. Qed.

Lemma gte_normal version b :
  Semver.gte version "2.0.0" = Normal b ->
  exists ver, Semver.parse version = Some ver /\ b = version_ge ver v2_0_0.
Proof.
  unfold Semver.gte. rewrite parse_2_0_0.
  destruct (Semver.parse version) as [ver|]; [| discriminate].
  intros [= <-]. now exists ver.
Qed.

(** What [>= 2.0.0] means on the parts of a version: a pre-release of 2.0.0
    itself is below the threshold. *)
Lemma version_ge_2_0_0 ver :
  version_ge ver v2_0_0 = true <->
  (2 < Semver.major ver)%N \/
  (Semver.major ver = 2%N /\
   ((0 < Semver.minor ver)%N \/ (0 < Semver.patch ver)%N \/
    Semver.prerelease ver = [])).
Proof.
  destruct ver as [ma mi pa pre bld].
  unfold version_ge, Semver.compare, Semver.compareMain, Semver.comparePre,
    Semver.then_compare, v2_0_0.
  cbn [Semver.major Semver.minor Semver.patch Semver.prerelease].
  destruct (N.compare_spec ma 2) as [Hma | Hma | Hma],
    (N.compare_spec mi 0) as [Hmi | Hmi | Hmi],
    (N.compare_spec pa 0) as [Hpa | Hpa | Hpa];
    destruct pre as [| i pre]; split; intros Hge;
    first [ reflexivity
          | discriminate
          | exfalso; intuition (lia || discriminate)
          | intuition (lia || auto) ].
Qed.

(** ** Every call, whatever the references point to *)

Lemma exec_assign_read {B} h lg o src k k' (K : unit -> M B) :
  exists v,
    bind (assign (length h) k (getProp src k')) K (mkState (h ++ [o]) lg)
    = K tt (mkState (h ++ [<[k := v]> o]) lg).
Proof.
  exists (get (obj_at (mkState (h ++ [o]) lg) src) k').
  unfold assign, getProp, setProp, bind. cbn [heap log].
  now rewrite obj_at_last, insert_last.
Qed.

Ltac step_assign :=
  rewrite ?bind_bind;
  first
    [ rewrite exec_assign_const
    | match goal with
      | |- context [bind (assign (length ?h) ?k (getProp ?src ?k')) ?K
                      (mkState (?h ++ [?o]) ?lg)] =>
          let v := fresh "v" in
          destruct (exec_assign_read h lg o src k k' K) as [v ->]
      end ].

Section Outcomes.

Variable D : string -> option Obj -> Completion (option Obj).

Lemma getPrettierOptions_cases fileName parser vs version rc range st :
  match D fileName (Some (obj_at st rc)) with
  | Throw e =>
      getPrettierOptions D fileName parser vs version rc range st
      = (Normal (Result.mk None (Some e)), st)
  | Normal c =>
      match Semver.gte version "2.0.0" with
      | Throw e =>
          getPrettierOptions D fileName parser vs version rc range st
          = (Throw e, mkState (heap st ++ [∅]) (log st))
      | Normal b =>
          exists o1 o2,
          getPrettierOptions D fileName parser vs version rc range st
          = (Normal (Result.mk (Some (S (length (heap st)))) None),
             mkState (heap st ++ [o1; o2])
               (log st ++ [if is_null c then NO_LOCAL_CONFIGURATION
                           else LOCAL_CONFIGURATION]))
      end
  end.
Proof.
  destruct (D fileName _) as [c | e] eqn:HD.
  2: now apply getPrettierOptions_rejected.
  destruct (Semver.gte version "2.0.0") as [b | e] eqn:Hv.
  2: eapply getPrettierOptions_invalid; eassumption.
  destruct c as [c |].
  - rewrite (getPrettierOptions_found D _ parser vs _ _ range _ _ _ HD Hv).
    cbn [heap log is_null]. rewrite <- app_assoc. now eexists _, _.
  - unfold getPrettierOptions.
    rewrite (bind_normal _ _ _ _ _ (resolveConfig_run _ _ _ _)).
    cbn [fmap option_fmap option_map]. rewrite HD.
    cbn [error config is_null].
    unfold bind at 1. unfold alloc at 1. unfold bind at 1, call at 1.
    rewrite Hv. destruct st as [h lg]. cbn [heap log] in *.
    destruct b.
    all: repeat step_assign.
    all: unfold bind at 1, logInfo at 1; cbn [heap log].
    all: unfold bind at 1, ownProps at 1; rewrite obj_at_last.
    all: destruct range as [l|]; unfold bind, ownProps, alloc, ret;
      cbn [heap log]; rewrite length_app, Nat.add_1_r, <- app_assoc;
      now eexists _, _.
Qed.

End Outcomes.

(** ** The discovery boundary *)

(** C6: [resolveConfig] never lets a failure of [prettier.resolveConfig]
    escape.  Whatever the discovery capability does, the call completes
    normally and leaves the store and the log as they were; a failure comes
    back as the [error] field with [config] set to [null], and a success
    comes back as [config] (possibly [null]) with no [error] field. *)
Theorem C6_resolveConfig_catches_every_failure
    (D : string -> option Obj -> Completion (option Obj))
    (filePath : string) (options : option loc) (st : State) :
  exists r,
    resolveConfig D filePath options st = (Normal r, st) /\
    match D filePath (obj_at st <$> options) with
    | Throw e => r = mkResolved None (Some e)
    | Normal c => r = mkResolved c None
    end.
Proof.
  rewrite resolveConfig_run. eexists; split; [reflexivity |].
  destruct (D filePath _); reflexivity.
Qed.

Lemma checkHasPrettierConfig_run D filePath st :
  checkHasPrettierConfig D filePath st =
  (match D filePath None with
   | Normal c => Normal (negb (is_null c))
   | Throw e => Throw e
   end, st).
Proof.
  unfold checkHasPrettierConfig.
  rewrite (bind_normal _ _ _ _ _ (resolveConfig_run _ _ _ _)).
  cbn [fmap option_fmap option_map].
  destruct (D filePath None); reflexivity.
Qed.

(** C5: [checkHasPrettierConfig] answers [false] exactly when discovery
    yields [null], [true] exactly when it yields a configuration, and raises
    exactly when discovery fails, with the error discovery gave. *)
Theorem C5_checkHasPrettierConfig_outcomes
    (D : string -> option Obj -> Completion (option Obj))
    (filePath : string) (st : State) :
  let out := (checkHasPrettierConfig D filePath st).1 in
  (out = Normal false <-> D filePath None = Normal None) /\
  (out = Normal true <-> exists c, D filePath None = Normal (Some c)) /\
  ((exists e, out = Throw e) <-> (exists e, D filePath None = Throw e)) /\
  (forall e, out = Throw e <-> D filePath None = Throw e).
Proof.
  rewrite checkHasPrettierConfig_run. cbn [fst].
  destruct (D filePath None) as [[c |] | e]; cbn [is_null negb];
    repeat split; intros;
    repeat match goal with H : exists _, _ |- _ => destruct H end;
    try discriminate; try congruence; eauto.
Qed.

(** ** The merged options *)

Section Merged.

Variable D : string -> option Obj -> Completion (option Obj).

(** A call that hands back options went through discovery and through
    the version comparison. *)
Lemma getPrettierOptions_options_inv
    fileName parser vs version rc range st r st' l :
  getPrettierOptions D fileName parser vs version rc range st
  = (Normal r, st') ->
  Result.options r = Some l ->
  exists c b,
    D fileName (Some (obj_at st rc)) = Normal c /\
    Semver.gte version "2.0.0" = Normal b /\
    r = Result.mk (Some (S (length (heap st)))) None /\
    l = S (length (heap st)).
Proof.
  intros Hrun Hl.
  pose proof (getPrettierOptions_cases D fileName parser vs version rc
                range st) as Hc.
  destruct (D fileName _) as [c | e].
  - destruct (Semver.gte version "2.0.0") as [b | e].
    + destruct Hc as (o1 & o2 & Hc). rewrite Hc in Hrun.
      injection Hrun as <- <-. cbn in Hl. injection Hl as <-.
      now exists c, b.
    + rewrite Hc in Hrun. discriminate.
  - rewrite Hc in Hrun. injection Hrun as <- <-. discriminate.
Qed.

Lemma merged_found fileName parser vs version rc range st c r st' :
  D fileName (Some (obj_at st rc)) = Normal (Some c) ->
  getPrettierOptions D fileName parser vs version rc range st
  = (Normal r, st') ->
  r = Result.mk (Some (S (length (heap st)))) None /\
  obj_at st' (S (length (heap st)))
  = spread [∅; injected fileName parser;
            range_layer (mkState (heap st ++ [∅])
                           (log st ++ [LOCAL_CONFIGURATION])) range;
            c].
Proof.
  intros HD Hrun.
  destruct (Semver.gte version "2.0.0") as [b | e] eqn:Hv.
  - rewrite (getPrettierOptions_found D _ parser vs _ _ range _ _ _ HD Hv)
      in Hrun.
    injection Hrun as <- <-. cbn [heap log].
    split; [reflexivity |]. apply obj_at_second.
  - rewrite (getPrettierOptions_invalid D _ parser vs _ _ range _ _ _ HD Hv)
      in Hrun.
    discriminate.
Qed.

Lemma merged_fallback fileName parser vs version rc range rng st b :
  D fileName (Some (obj_at st rc)) = Normal None ->
  Semver.gte version "2.0.0" = Normal b ->
  vs < length (heap st) ->
  range_argument st range rng ->
  exists st',
    getPrettierOptions D fileName parser vs version rc range st
    = (Normal (Result.mk (Some (S (length (heap st)))) None), st') /\
    obj_at st' (S (length (heap st)))
    = spread [vsOpts_object b (obj_at st vs); injected fileName parser;
              from_option range_object ∅ rng; ∅].
Proof.
  intros HD Hv Hvs Hrng.
  rewrite (getPrettierOptions_fallback D _ parser _ _ _ range _ _ HD Hv Hvs).
  cbn [heap log]. eexists. split; [reflexivity |].
  rewrite obj_at_second.
  now rewrite (range_layer_typed st range rng _ _ Hrng).
Qed.

End Merged.

(** C1, as amended: in every options record the call returns, [filepath]
    and [parser] are present.  Each equals the call argument unless the
    discovered configuration defines that field itself, in which case the
    discovered value is the one returned.  The editor settings and the
    range options cannot change them. *)
Theorem C1_filepath_and_parser_unless_discovered
    (D : string -> option Obj -> Completion (option Obj))
    (fileName parser : string) (vsCodeConfig : loc) (prettierVersion : string)
    (resolveConfigOptions : loc) (rangeFormattingOptions : option loc)
    (rng : option RangeFormattingOptions) (st st' : State)
    (r : Result.t) (l : loc) :
  vsCodeConfig < length (heap st) ->
  range_argument st rangeFormattingOptions rng ->
  getPrettierOptions D fileName parser vsCodeConfig prettierVersion
    resolveConfigOptions rangeFormattingOptions st = (Normal r, st') ->
  Result.options r = Some l ->
  exists c,
    D fileName (Some (obj_at st resolveConfigOptions)) = Normal c /\
    obj_at st' l !! "filepath"
    = Some (default (VStr fileName) (or_empty c !! "filepath")) /\
    obj_at st' l !! "parser"
    = Some (default (VStr parser) (or_empty c !! "parser")).
Proof.
  intros Hvs Hrng Hrun Hl.
  destruct (getPrettierOptions_options_inv D _ _ _ _ _ _ _ _ _ _ Hrun Hl)
    as (c & b & HD & Hv & Hr & ->).
  exists c. split; [exact HD |].
  destruct c as [c |].
  - destruct (merged_found D _ _ _ _ _ _ _ _ _ _ HD Hrun) as [_ ->].
    rewrite (range_layer_typed st _ rng _ _ Hrng).
    rewrite !lookup_spread4, injected_filepath, injected_parser.
    rewrite !range_layer_other by discriminate.
    cbn [or_empty].
    destruct (c !! "filepath"), (c !! "parser"); split; reflexivity.
  - destruct (merged_fallback D fileName parser _ _ _ _ _ _ _ HD Hv Hvs Hrng)
      as (st1 & Hrun1 & Hobj).
    rewrite Hrun1 in Hrun. injection Hrun as _ <-. rewrite Hobj.
    rewrite !lookup_spread4, injected_filepath, injected_parser.
    rewrite !range_layer_other by discriminate.
    rewrite !lookup_empty. cbn [or_empty]. rewrite !lookup_empty.
    split; reflexivity.
Qed.

(** C1 as the spec words it fails: the project configuration
    [{tabWidth: 4, parser: "flow"}] is discovered for a call made with the
    parser ["babel"], and the options returned carry ["flow"]. *)
Lemma C1_discovered_parser_overrides_argument :
  Sample.run_found.1 = Normal (Result.mk (Some 4) None) /\
  get (obj_at Sample.run_found.2 4) "parser" = VStr "flow" /\
  bool_decide (get (obj_at Sample.run_found.2 4) "parser" = VStr "babel")
  = false.
Proof. vm_compute. repeat split. Qed.

Lemma C1_witness :
  exists c,
    Sample.found "a.js" (Some (obj_at Sample.st0 1)) = Normal c /\
    obj_at Sample.run_found.2 4 !! "filepath"
    = Some (default (VStr "a.js") (or_empty c !! "filepath")) /\
    obj_at Sample.run_found.2 4 !! "parser"
    = Some (default (VStr "babel") (or_empty c !! "parser")).
Proof.
  apply (C1_filepath_and_parser_unless_discovered
           Sample.found "a.js" "babel" 0 "2.3.1" 1 (Some 2)
           (Some Sample.range) Sample.st0 Sample.run_found.2
           (Result.mk (Some 4) None) 4).
  - vm_compute. lia.
  - reflexivity.
  - vm_compute. reflexivity.
  - reflexivity.
Defined.

(** C2: when discovery returns a configuration, every field of it is in
    the options the call returns, with the discovered value, whatever the
    editor settings and the range options hold. *)
Theorem C2_discovered_fields_always_win
    (D : string -> option Obj -> Completion (option Obj))
    (fileName parser : string) (vsCodeConfig : loc) (prettierVersion : string)
    (resolveConfigOptions : loc) (rangeFormattingOptions : option loc)
    (st st' : State) (c : Obj) (r : Result.t) :
  D fileName (Some (obj_at st resolveConfigOptions)) = Normal (Some c) ->
  getPrettierOptions D fileName parser vsCodeConfig prettierVersion
    resolveConfigOptions rangeFormattingOptions st = (Normal r, st') ->
  exists l,
    Result.options r = Some l /\ Result.error r = None /\
    forall k v, c !! k = Some v -> obj_at st' l !! k = Some v.
Proof.
  intros HD Hrun.
  destruct (merged_found D _ _ _ _ _ _ _ _ _ _ HD Hrun) as [-> Hobj].
  eexists. split; [reflexivity |]. split; [reflexivity |].
  intros k v Hk. rewrite Hobj, lookup_spread4, Hk. reflexivity.
Qed.

Lemma C2_witness :
  exists l,
    Result.options (Result.mk (Some 4) None) = Some l /\
    Result.error (Result.mk (Some 4) None) = None /\
    forall k v,
      Sample.project !! k = Some v ->
      obj_at Sample.run_found.2 l !! k = Some v.
Proof.
  apply (C2_discovered_fields_always_win
           Sample.found "a.js" "babel" 0 "2.3.1" 1 (Some 2)
           Sample.st0 Sample.run_found.2 Sample.project
           (Result.mk (Some 4) None)).
  - reflexivity.
  - vm_compute. reflexivity.
Defined.

(** The spec's example: a discovered [{tabWidth: 4}] gives [tabWidth] 4
    although the editor says 2. *)
Example discovered_tabWidth :
  get Sample.editor "tabWidth" = VNum 2 /\
  get (obj_at Sample.run_found.2 4) "tabWidth" = VNum 4.
Proof. vm_compute. split; reflexivity. Qed.

(** C3, as amended: when discovery returns [null] and the range argument,
    if there is one, is an object with the two offsets only, the call
    returns options whose [filepath] and [parser] are the call's arguments,
    whose copied fields read as they do in the editor settings, and whose
    three gated fields follow the gate table for the version given. *)
Theorem C3_fallback_takes_editor_config
    (D : string -> option Obj -> Completion (option Obj))
    (fileName parser : string) (vsCodeConfig : loc) (prettierVersion : string)
    (resolveConfigOptions : loc) (rangeFormattingOptions : option loc)
    (rng : option RangeFormattingOptions) (st st' : State) (r : Result.t) :
  D fileName (Some (obj_at st resolveConfigOptions)) = Normal None ->
  vsCodeConfig < length (heap st) ->
  range_argument st rangeFormattingOptions rng ->
  getPrettierOptions D fileName parser vsCodeConfig prettierVersion
    resolveConfigOptions rangeFormattingOptions st = (Normal r, st') ->
  exists l ver,
    Result.options r = Some l /\ Result.error r = None /\
    Semver.parse prettierVersion = Some ver /\
    get (obj_at st' l) "filepath" = VStr fileName /\
    get (obj_at st' l) "parser" = VStr parser /\
    (forall k, In k copied_fields ->
       get (obj_at st' l) k = get (obj_at st vsCodeConfig) k) /\
    (forall f, In f gated_fields ->
       get (obj_at st' l) f.1
       = gated (version_ge ver v2_0_0) (obj_at st vsCodeConfig) f).
Proof.
  intros HD Hvs Hrng Hrun.
  destruct (Semver.gte prettierVersion "2.0.0") as [b | e] eqn:Hv.
  2: { rewrite (getPrettierOptions_invalid D _ parser vsCodeConfig _ _
                  rangeFormattingOptions _ _ _ HD Hv) in Hrun.
       discriminate. }
  destruct (gte_normal _ _ Hv) as (ver & Hver & ->).
  destruct (merged_fallback D fileName parser _ _ _ _ _ _ _ HD Hv Hvs Hrng)
    as (st1 & Hrun1 & Hobj).
  rewrite Hrun1 in Hrun. injection Hrun as <- <-.
  exists (S (length (heap st))), ver.
  repeat (split; [reflexivity || exact Hver |]).
  unfold get. rewrite Hobj. repeat split.
  - rewrite lookup_spread4, lookup_empty, injected_filepath.
    now rewrite range_layer_other by discriminate.
  - rewrite lookup_spread4, lookup_empty, injected_parser.
    now rewrite range_layer_other by discriminate.
  - intros k Hk. rewrite lookup_spread4, lookup_empty.
    rewrite (vsOpts_object_copied _ _ _ Hk).
    unfold copied_fields in Hk. cbn [In] in Hk.
    rewrite range_layer_other, injected_other;
      [reflexivity | | | |]; intros ->; intuition discriminate.
  - intros f Hf. rewrite lookup_spread4, lookup_empty.
    rewrite (vsOpts_object_gated _ _ _ Hf).
    unfold gated_fields in Hf. cbn [In] in Hf.
    rewrite range_layer_other, injected_other;
      [reflexivity | | | |]; intros E;
      destruct Hf as [<- | [<- | [<- | []]]]; discriminate.
Qed.

Lemma C3_witness :
  exists l ver,
    Result.options (Result.mk (Some 4) None) = Some l /\
    Result.error (Result.mk (Some 4) None) = None /\
    Semver.parse "1.19.0" = Some ver /\
    get (obj_at Sample.run_fallback_v1.2 l) "filepath" = VStr "a.js" /\
    get (obj_at Sample.run_fallback_v1.2 l) "parser" = VStr "babel" /\
    (forall k, In k copied_fields ->
       get (obj_at Sample.run_fallback_v1.2 l) k
       = get (obj_at Sample.st0 0) k) /\
    (forall f, In f gated_fields ->
       get (obj_at Sample.run_fallback_v1.2 l) f.1
       = gated (version_ge ver v2_0_0) (obj_at Sample.st0 0) f).
Proof.
  apply (C3_fallback_takes_editor_config
           Sample.none_found "a.js" "babel" 0 "1.19.0" 1 (Some 2)
           (Some Sample.range) Sample.st0 Sample.run_fallback_v1.2
           (Result.mk (Some 4) None)).
  - reflexivity.
  - vm_compute. lia.
  - reflexivity.
  - vm_compute. reflexivity.
Defined.

(** C3 as the spec words it fails: the range layer is spread after the
    editor layer and the injected pair (line 80).  With no discovered
    configuration and a range object that also carries [filepath],
    [tabWidth] and [arrowParens], the options have the range object's
    [filepath] and [tabWidth], not the argument and the editor's value. *)
Lemma C3_range_object_overrides_copied_fields :
  Sample.none_found "a.js" (Some (obj_at Sample.st_wider 1)) = Normal None /\
  Sample.run_fallback_wider.1 = Normal (Result.mk (Some 4) None) /\
  get (obj_at Sample.run_fallback_wider.2 4) "filepath" = VStr "b.js" /\
  bool_decide (get (obj_at Sample.run_fallback_wider.2 4) "filepath"
               = VStr "a.js") = false /\
  get (obj_at Sample.st_wider 0) "tabWidth" = VNum 2 /\
  get (obj_at Sample.run_fallback_wider.2 4) "tabWidth" = VNum 8 /\
  bool_decide (get (obj_at Sample.run_fallback_wider.2 4) "tabWidth"
               = get (obj_at Sample.st_wider 0) "tabWidth") = false.
Proof. vm_compute. repeat split. Qed.

(** The spec's first example: editor [{tabWidth: 2, semi: true, ...}], no
    discovered configuration, prettier 1.19.0. *)
Example fallback_1_19_0 :
  let o := obj_at Sample.run_fallback_v1.2 4 in
  get o "tabWidth" = VNum 2 /\ get o "semi" = VBool true /\
  get o "arrowParens" = VStr "avoid" /\ get o "trailingComma" = VStr "none" /\
  get o "endOfLine" = VStr "auto" /\
  get o "filepath" = VStr "a.js" /\ get o "parser" = VStr "babel".
Proof. vm_compute. repeat split. Qed.

(** The spec's second example: with prettier 2.3.1 the editor's
    [arrowParens: "always"] is copied. *)
Example fallback_2_3_1 :
  get (obj_at Sample.run_fallback_v2.2 4) "arrowParens" = VStr "always".
Proof. vm_compute. reflexivity. Qed.

(** C4, as amended: when falling back to the editor settings with a range
    argument that, if there is one, is an object with the two offsets only,
    a version at or above 2.0.0 copies [arrowParens], [trailingComma] and
    [endOfLine] from the editor settings, and a version below 2.0.0 fixes
    them to ["avoid"], ["none"] and ["auto"]. *)
Theorem C4_version_gate
    (D : string -> option Obj -> Completion (option Obj))
    (fileName parser : string) (vsCodeConfig : loc) (prettierVersion : string)
    (resolveConfigOptions : loc) (rangeFormattingOptions : option loc)
    (rng : option RangeFormattingOptions) (st : State) (ver : Semver.SemVer) :
  D fileName (Some (obj_at st resolveConfigOptions)) = Normal None ->
  vsCodeConfig < length (heap st) ->
  range_argument st rangeFormattingOptions rng ->
  Semver.parse prettierVersion = Some ver ->
  exists l st',
    getPrettierOptions D fileName parser vsCodeConfig prettierVersion
      resolveConfigOptions rangeFormattingOptions st
    = (Normal (Result.mk (Some l) None), st') /\
    let o := obj_at st' l in
    let ed := obj_at st vsCodeConfig in
    (version_ge ver v2_0_0 = true ->
       get o "arrowParens" = get ed "arrowParens" /\
       get o "trailingComma" = get ed "trailingComma" /\
       get o "endOfLine" = get ed "endOfLine") /\
    (version_ge ver v2_0_0 = false ->
       get o "arrowParens" = VStr "avoid" /\
       get o "trailingComma" = VStr "none" /\
       get o "endOfLine" = VStr "auto").
Proof.
  intros HD Hvs Hrng Hver.
  pose proof (gte_valid _ _ Hver) as Hv.
  destruct (merged_fallback D fileName parser _ _ _ _ _ _ _ HD Hv Hvs Hrng)
    as (st' & Hrun & Hobj).
  exists (S (length (heap st))), st'. split; [exact Hrun |].
  assert (Hg : forall f, In f gated_fields ->
            get (obj_at st' (S (length (heap st)))) f.1
            = gated (version_ge ver v2_0_0) (obj_at st vsCodeConfig) f).
  { intros f Hf. unfold get at 1. rewrite Hobj, lookup_spread4, lookup_empty.
    rewrite (vsOpts_object_gated _ _ _ Hf).
    unfold gated_fields in Hf. cbn [In] in Hf.
    rewrite range_layer_other, injected_other;
      [reflexivity | | | |]; intros E;
      destruct Hf as [<- | [<- | [<- | []]]]; discriminate. }
  pose proof (Hg ("arrowParens", VStr "avoid") ltac:(cbn; tauto)) as Ha.
  pose proof (Hg ("trailingComma", VStr "none") ltac:(cbn; tauto)) as Ht.
  pose proof (Hg ("endOfLine", VStr "auto") ltac:(cbn; tauto)) as He.
  unfold gated in Ha, Ht, He. cbn [fst snd] in Ha, Ht, He.
  cbv zeta. split; intros Hge; rewrite Hge in Ha, Ht, He; auto.
Qed.

Lemma C4_witness :
  exists l st',
    Sample.run_fallback_v2 = (Normal (Result.mk (Some l) None), st') /\
    let o := obj_at st' l in
    let ed := obj_at Sample.st0 0 in
    (version_ge (Semver.mkSemVer 2 3 1 [] []) v2_0_0 = true ->
       get o "arrowParens" = get ed "arrowParens" /\
       get o "trailingComma" = get ed "trailingComma" /\
       get o "endOfLine" = get ed "endOfLine") /\
    (version_ge (Semver.mkSemVer 2 3 1 [] []) v2_0_0 = false ->
       get o "arrowParens" = VStr "avoid" /\
       get o "trailingComma" = VStr "none" /\
       get o "endOfLine" = VStr "auto").
Proof.
  apply (C4_version_gate
           Sample.none_found "a.js" "babel" 0 "2.3.1" 1 (Some 2)
           (Some Sample.range) Sample.st0 (Semver.mkSemVer 2 3 1 [] [])).
  - reflexivity.
  - vm_compute. lia.
  - reflexivity.
  - reflexivity.
Defined.

(** C4 as the spec words it fails: with prettier 1.19.0, no discovered
    configuration and a range object that carries [arrowParens: "always"],
    the options have ["always"], not the fixed ["avoid"]. *)
Lemma C4_range_object_overrides_gated_field :
  Sample.none_found "a.js" (Some (obj_at Sample.st_wider 1)) = Normal None /\
  Semver.gte "1.19.0" "2.0.0" = Normal false /\
  Sample.run_fallback_wider.1 = Normal (Result.mk (Some 4) None) /\
  get (obj_at Sample.run_fallback_wider.2 4) "arrowParens" = VStr "always" /\
  bool_decide (get (obj_at Sample.run_fallback_wider.2 4) "arrowParens"
               = VStr "avoid") = false.
Proof. vm_compute. repeat split. Qed.

(** A release candidate of 2.0.0 sorts below 2.0.0 and keeps the fixed
    values; a pre-release of 2.0.1 is already above the threshold. *)
Example prerelease_below_release :
  Semver.gte "2.0.0-rc.1" "2.0.0" = Normal false /\
  Semver.gte "2.0.1-rc.1" "2.0.0" = Normal true /\
  Semver.gte "2.0.0" "2.0.0" = Normal true /\
  Semver.gte "1.19.0" "2.0.0" = Normal false.
Proof. vm_compute. repeat split. Qed.

(** ** Errors, the log line and the store *)

(** C7, as amended: when discovery failed the call returns exactly that
    error and no options, the store and the log untouched; when discovery
    succeeded and [prettierVersion] is a semantic version the call returns
    options and no error; and every result the call returns has exactly one
    of the two fields. *)
Theorem C7_error_or_options
    (D : string -> option Obj -> Completion (option Obj))
    (fileName parser : string) (vsCodeConfig : loc) (prettierVersion : string)
    (resolveConfigOptions : loc) (rangeFormattingOptions : option loc)
    (st : State) :
  let run := getPrettierOptions D fileName parser vsCodeConfig prettierVersion
               resolveConfigOptions rangeFormattingOptions st in
  (forall e,
     D fileName (Some (obj_at st resolveConfigOptions)) = Throw e ->
     run = (Normal (Result.mk None (Some e)), st)) /\
  (forall c ver,
     D fileName (Some (obj_at st resolveConfigOptions)) = Normal c ->
     Semver.parse prettierVersion = Some ver ->
     exists l st', run = (Normal (Result.mk (Some l) None), st')) /\
  (forall r st',
     run = (Normal r, st') ->
     (is_Some (Result.options r) /\ Result.error r = None) \/
     (Result.options r = None /\ is_Some (Result.error r))).
Proof.
  cbv zeta.
  pose proof (getPrettierOptions_cases D fileName parser vsCodeConfig
                prettierVersion resolveConfigOptions rangeFormattingOptions st)
    as Hc.
  repeat split.
  - intros e HD. now rewrite HD in Hc.
  - intros c ver HD Hver. rewrite HD, (gte_valid _ _ Hver) in Hc.
    destruct Hc as (o1 & o2 & ->). now eexists _, _.
  - intros r st' Hrun.
    destruct (D fileName _) as [c | e].
    + destruct (Semver.gte prettierVersion "2.0.0") as [b | e].
      * destruct Hc as (o1 & o2 & Hc). rewrite Hc in Hrun.
        injection Hrun as <- <-. left. cbn. eauto.
      * rewrite Hc in Hrun. discriminate.
    + rewrite Hc in Hrun. injection Hrun as <- <-. right. cbn. eauto.
Qed.

(** C7 as the spec words it fails: discovery succeeds, the version string
    is ["abc"], and the call returns neither field: it raises. *)
Lemma C7_no_result_for_invalid_version :
  Sample.found "a.js" (Some (obj_at Sample.st0 1))
  = Normal (Some Sample.project) /\
  Sample.run_found_bad_version.1 = Throw (Semver.invalid_version "abc").
Proof. vm_compute. split; reflexivity. Qed.

Lemma C7_witness :
  Sample.run_failing
  = (Normal (Result.mk None (Some Sample.broken)), Sample.st0) /\
  (exists l st', Sample.run_found = (Normal (Result.mk (Some l) None), st')).
Proof.
  split.
  - apply (C7_error_or_options Sample.failing "a.js" "babel" 0 "2.3.1" 1
             (Some 2) Sample.st0).
    reflexivity.
  - apply (proj1 (proj2
             (C7_error_or_options Sample.found "a.js" "babel" 0 "2.3.1" 1
                (Some 2) Sample.st0))
             (Some Sample.project) (Semver.mkSemVer 2 3 1 [] [])).
    + reflexivity.
    + reflexivity.
Defined.

(** C8, as amended: a call that returns options has added exactly one line
    to the log, the fallback message when discovery returned [null] and the
    other message when it returned a configuration; a call that returns the
    discovery error, or that raises, has added none.  The two messages
    differ. *)
Theorem C8_one_log_line_with_the_options
    (D : string -> option Obj -> Completion (option Obj))
    (fileName parser : string) (vsCodeConfig : loc) (prettierVersion : string)
    (resolveConfigOptions : loc) (rangeFormattingOptions : option loc)
    (st : State) :
  let run := getPrettierOptions D fileName parser vsCodeConfig prettierVersion
               resolveConfigOptions rangeFormattingOptions st in
  NO_LOCAL_CONFIGURATION <> LOCAL_CONFIGURATION /\
  match run.1 with
  | Normal r =>
      match Result.options r with
      | Some _ =>
          exists c,
            D fileName (Some (obj_at st resolveConfigOptions)) = Normal c /\
            log run.2 =
            log st ++ [if is_null c then NO_LOCAL_CONFIGURATION
                       else LOCAL_CONFIGURATION]
      | None => log run.2 = log st
      end
  | Throw _ => log run.2 = log st
  end.
Proof.
  cbv zeta. split; [discriminate |].
  pose proof (getPrettierOptions_cases D fileName parser vsCodeConfig
                prettierVersion resolveConfigOptions rangeFormattingOptions st)
    as Hc.
  destruct (D fileName _) as [c | e].
  - destruct (Semver.gte prettierVersion "2.0.0") as [b | e].
    + destruct Hc as (o1 & o2 & ->). cbn. now exists c.
    + rewrite Hc. reflexivity.
  - rewrite Hc. reflexivity.
Qed.

(** C8 as the spec words it fails: a call whose discovery fails returns
    the error and the log has no line. *)
Lemma C8_no_log_line_when_discovery_fails :
  Sample.run_failing.1 = Normal (Result.mk None (Some Sample.broken)) /\
  log Sample.st0 = [] /\
  log Sample.run_failing.2 = [].
Proof. vm_compute. repeat split. Qed.

(** C9: the call writes to no object that existed before it.  Every object
    of the store, the three object arguments among them, has the same
    properties afterwards, and the options handed back are a new object. *)
Theorem C9_inputs_are_not_mutated
    (D : string -> option Obj -> Completion (option Obj))
    (fileName parser : string) (vsCodeConfig : loc) (prettierVersion : string)
    (resolveConfigOptions : loc) (rangeFormattingOptions : option loc)
    (st : State) :
  let run := getPrettierOptions D fileName parser vsCodeConfig prettierVersion
               resolveConfigOptions rangeFormattingOptions st in
  (forall l o, heap st !! l = Some o -> heap run.2 !! l = Some o) /\
  (vsCodeConfig < length (heap st) ->
     obj_at run.2 vsCodeConfig = obj_at st vsCodeConfig) /\
  (resolveConfigOptions < length (heap st) ->
     obj_at run.2 resolveConfigOptions = obj_at st resolveConfigOptions) /\
  (forall range, rangeFormattingOptions = Some range ->
     range < length (heap st) -> obj_at run.2 range = obj_at st range) /\
  (forall r l, run.1 = Normal r -> Result.options r = Some l ->
     heap st !! l = None /\ is_Some (heap run.2 !! l)).
Proof.
  cbv zeta.
  pose proof (getPrettierOptions_cases D fileName parser vsCodeConfig
                prettierVersion resolveConfigOptions rangeFormattingOptions st)
    as Hc.
  assert (Hext : exists new,
            heap (getPrettierOptions D fileName parser vsCodeConfig
                    prettierVersion resolveConfigOptions
                    rangeFormattingOptions st).2 = heap st ++ new).
  { destruct (D fileName _) as [c | e].
    - destruct (Semver.gte prettierVersion "2.0.0") as [b | e].
      + destruct Hc as (o1 & o2 & ->). now eexists.
      + rewrite Hc. now eexists.
    - rewrite Hc. exists []. cbn. now rewrite app_nil_r. }
  destruct Hext as [new Hext].
  assert (Hold : forall l, l < length (heap st) ->
            obj_at (getPrettierOptions D fileName parser vsCodeConfig
                      prettierVersion resolveConfigOptions
                      rangeFormattingOptions st).2 l = obj_at st l).
  { intros l Hl. unfold obj_at. rewrite Hext. now rewrite lookup_app_l. }
  split; [| split; [| split; [| split]]].
  - intros l o Hl. rewrite Hext. rewrite lookup_app_l; [exact Hl |].
    eapply lookup_lt_Some; eassumption.
  - apply Hold.
  - apply Hold.
  - intros range _. apply Hold.
  - intros r l Hr Hl.
    destruct (D fileName _) as [c | e].
    + destruct (Semver.gte prettierVersion "2.0.0") as [b | e].
      * destruct Hc as (o1 & o2 & Hc). rewrite Hc in Hr |- *.
        cbn [fst snd heap] in Hr |- *.
        injection Hr as <-. cbn in Hl. injection Hl as <-. split.
        -- apply lookup_ge_None. lia.
        -- apply lookup_lt_is_Some. rewrite length_app. cbn. lia.
      * rewrite Hc in Hr. discriminate.
    + rewrite Hc in Hr. injection Hr as <-. discriminate.
Qed.

Lemma C9_witness :
  heap Sample.run_fallback_v1.2 !! 0 = Some Sample.editor /\
  obj_at Sample.run_fallback_v1.2 1 = obj_at Sample.st0 1 /\
  obj_at Sample.run_fallback_v1.2 2 = obj_at Sample.st0 2 /\
  (heap Sample.st0 !! 4 = None /\ is_Some (heap Sample.run_fallback_v1.2 !! 4)).
Proof.
  pose proof (C9_inputs_are_not_mutated Sample.none_found "a.js" "babel" 0
                "1.19.0" 1 (Some 2) Sample.st0) as (H1 & _ & H3 & H4 & H5).
  split; [| split; [| split]].
  - apply H1. reflexivity.
  - apply H3. vm_compute. lia.
  - apply (H4 2); [reflexivity | vm_compute; lia].
  - apply (H5 (Result.mk (Some 4) None) 4); [vm_compute |]; reflexivity.
Defined.

(** C10, as amended: with a [prettierVersion] that is a semantic version
    the call never raises.  With one that is not, the call raises the
    [TypeError] of the version comparison, and logs nothing, whenever
    discovery did not fail; when discovery failed, the comparison is not
    reached and the call still returns the discovery error. *)
Theorem C10_invalid_version_raises_after_discovery
    (D : string -> option Obj -> Completion (option Obj))
    (fileName parser : string) (vsCodeConfig : loc) (prettierVersion : string)
    (resolveConfigOptions : loc) (rangeFormattingOptions : option loc)
    (st : State) :
  let run := getPrettierOptions D fileName parser vsCodeConfig prettierVersion
               resolveConfigOptions rangeFormattingOptions st in
  (forall ver, Semver.parse prettierVersion = Some ver ->
     exists r, run.1 = Normal r) /\
  (Semver.parse prettierVersion = None ->
     (forall c,
        D fileName (Some (obj_at st resolveConfigOptions)) = Normal c ->
        run.1 = Throw (Semver.invalid_version prettierVersion) /\
        log run.2 = log st) /\
     (forall e,
        D fileName (Some (obj_at st resolveConfigOptions)) = Throw e ->
        run = (Normal (Result.mk None (Some e)), st))).
Proof.
  cbv zeta.
  pose proof (getPrettierOptions_cases D fileName parser vsCodeConfig
                prettierVersion resolveConfigOptions rangeFormattingOptions st)
    as Hc.
  split; [| intros Hver; split].
  - intros ver Hver. rewrite (gte_valid _ _ Hver) in Hc.
    destruct (D fileName _) as [c | e].
    + destruct Hc as (o1 & o2 & ->). now eexists.
    + rewrite Hc. now eexists.
  - intros c HD. rewrite HD, (gte_invalid _ Hver) in Hc. rewrite Hc.
    split; reflexivity.
  - intros e HD. now rewrite HD in Hc.
Qed.

(** C10 as the spec words it fails: the version string ["abc"] is not a
    semantic version, discovery fails, and the call raises nothing: it
    returns the discovery error. *)
Lemma C10_invalid_version_without_exception :
  Semver.parse "abc" = None /\
  Sample.run_failing_bad_version
  = (Normal (Result.mk None (Some Sample.broken)), Sample.st0).
Proof. vm_compute. split; reflexivity. Qed.

Lemma C10_witness :
  (exists r, Sample.run_found.1 = Normal r) /\
  (Sample.run_found_bad_version.1 = Throw (Semver.invalid_version "abc") /\
   log Sample.run_found_bad_version.2 = log Sample.st0).
Proof.
  split.
  - apply (proj1 (C10_invalid_version_raises_after_discovery
                    Sample.found "a.js" "babel" 0 "2.3.1" 1 (Some 2)
                    Sample.st0) (Semver.mkSemVer 2 3 1 [] [])).
    reflexivity.
  - apply (proj1 (proj2 (C10_invalid_version_raises_after_discovery
                    Sample.found "a.js" "babel" 0 "abc" 1 (Some 2)
                    Sample.st0) eq_refl) (Some Sample.project)).
    reflexivity.
Defined.

(** ** The result in closed form *)

Lemma obj_at_frame h new lg1 lg2 l :
  l < length h ->
  obj_at (mkState (h ++ new) lg1) l = obj_at (mkState h lg2) l.
Proof. intros H. unfold obj_at. cbn [heap]. now rewrite lookup_app_l. Qed.

Lemma range_layer_frame h new lg1 lg2 range :
  match range with Some l => l < length h | None => True end ->
  range_layer (mkState (h ++ new) lg1) range
  = range_layer (mkState h lg2) range.
Proof.
  destruct range as [l |]; unfold range_layer; cbn [from_option];
    [apply obj_at_frame | reflexivity].
Qed.

Section ClosedForm.

Variable D : string -> option Obj -> Completion (option Obj).

(** What a call that gets past discovery and the version comparison
    returns, in terms of the store it started from. *)
Lemma getPrettierOptions_closed_form
    fileName parser vs version rc range st c b :
  D fileName (Some (obj_at st rc)) = Normal c ->
  Semver.gte version "2.0.0" = Normal b ->
  live_arguments st vs rc range ->
  let editorLayer :=
    if is_null c then vsOpts_object b (obj_at st vs) else ∅ in
  getPrettierOptions D fileName parser vs version rc range st
  = (Normal (Result.mk (Some (S (length (heap st)))) None),
     mkState
       (heap st ++
        [editorLayer;
         spread [editorLayer; injected fileName parser;
                 range_layer st range; or_empty c]])
       (log st ++ [if is_null c then NO_LOCAL_CONFIGURATION
                   else LOCAL_CONFIGURATION])).
Proof.
  intros HD Hv (Hvs & Hrc & Hrange). destruct st as [h lg].
  cbn [heap log] in *. destruct c as [c |]; cbn [is_null or_empty].
  - rewrite (getPrettierOptions_found D _ parser vs _ _ range _ _ _ HD Hv).
    cbn [heap log]. rewrite <- app_assoc. cbn [app].
    now rewrite (range_layer_frame h [∅] _ lg range Hrange).
  - rewrite (getPrettierOptions_fallback D _ parser vs _ _ range _ _
               HD Hv Hvs).
    cbn [heap log]. rewrite <- app_assoc. cbn [app].
    now rewrite (range_layer_frame h [_] _ lg range Hrange).
Qed.

(** The same, read back from a call that returned options. *)
Lemma getPrettierOptions_returned
    fileName parser vs version rc range st r st' l :
  live_arguments st vs rc range ->
  getPrettierOptions D fileName parser vs version rc range st
  = (Normal r, st') ->
  Result.options r = Some l ->
  exists c b,
    D fileName (Some (obj_at st rc)) = Normal c /\
    Semver.gte version "2.0.0" = Normal b /\
    l = S (length (heap st)) /\
    log st' = log st ++ [if is_null c then NO_LOCAL_CONFIGURATION
                         else LOCAL_CONFIGURATION] /\
    length (heap st') = S (S (length (heap st))) /\
    obj_at st' l
    = spread [if is_null c then vsOpts_object b (obj_at st vs) else ∅;
              injected fileName parser; range_layer st range; or_empty c].
Proof.
  intros Hlive Hrun Hl.
  destruct (getPrettierOptions_options_inv D _ _ _ _ _ _ _ _ _ _ Hrun Hl)
    as (c & b & HD & Hv & _ & ->).
  exists c, b. repeat (split; [assumption || reflexivity |]).
  rewrite (getPrettierOptions_closed_form _ parser _ _ _ _ _ _ _ HD Hv Hlive)
    in Hrun.
  injection Hrun as _ <-. cbn [heap log]. split; [reflexivity |]. split.
  - rewrite length_app. cbn. lia.
  - unfold obj_at. cbn [heap].
    replace (S (length (heap st))) with (length (heap st) + 1) by lia.
    rewrite lookup_app_r by lia.
    now replace (length (heap st) + 1 - length (heap st)) with 1 by lia.
Qed.

End ClosedForm.

(** ** Which properties the merged object owns *)

Lemma is_Some_spread4 (a b c d : Obj) k :
  is_Some (spread [a; b; c; d] !! k) <->
  is_Some (d !! k) \/ is_Some (c !! k) \/ is_Some (b !! k) \/ is_Some (a !! k).
Proof.
  rewrite lookup_spread4.
  destruct (d !! k), (c !! k), (b !! k), (a !! k);
    split; intros H; eauto 6;
    repeat (destruct H as [H | H]); try (now apply is_Some_None in H).
  all: now apply is_Some_None in H.
Qed.

Lemma injected_is_Some fileName parser k :
  is_Some (injected fileName parser !! k) <-> k = "filepath" \/ k = "parser".
Proof.
  unfold injected. rewrite !lookup_insert_is_Some'.
  split.
  - intros [<- | [<- | H]]; auto. now apply lookup_empty_is_Some in H.
  - intros [-> | ->]; auto.
Qed.

Lemma range_layer_argument st range rng :
  range_argument st range rng ->
  range_layer st range = from_option range_object ∅ rng.
Proof.
  destruct range as [l |], rng as [r |];
    unfold range_argument, range_layer, obj_at; cbn [from_option];
    try tauto.
  now intros ->.
Qed.

Lemma range_object_is_Some rng k :
  is_Some (from_option range_object ∅ rng !! k) <->
  is_Some rng /\ (k = "rangeStart" \/ k = "rangeEnd").
Proof.
  destruct rng as [r |]; cbn [from_option].
  - unfold range_object. rewrite !lookup_insert_is_Some'. split.
    + intros [<- | [<- | H]]; eauto. now apply lookup_empty_is_Some in H.
    + intros [_ [-> | ->]]; auto.
  - split.
    + intros H. now apply lookup_empty_is_Some in H.
    + intros [H _]. now apply is_Some_None in H.
Qed.

Lemma vsOpts_object_is_Some b ed k :
  is_Some (vsOpts_object b ed !! k) <-> In k editor_fields.
Proof.
  unfold vsOpts_object, editor_fields, gated_fields, copied_fields.
  cbn [map app fst In].
  rewrite !lookup_insert_is_Some'. split.
  - intros H. repeat (destruct H as [<- | H]; [tauto |]).
    now apply lookup_empty_is_Some in H.
  - intros H. repeat (destruct H as [<- | H]; [tauto |]). destruct H.
Qed.

Lemma editor_field_not_injected k :
  In k editor_fields ->
  k <> "filepath" /\ k <> "parser" /\ k <> "rangeStart" /\ k <> "rangeEnd".
Proof.
  unfold editor_fields, gated_fields, copied_fields.
  cbn [map app fst In]. intros H.
  repeat (destruct H as [<- | H]; [repeat split; discriminate |]).
  destruct H.
Qed.

(** X1: on fallback the options own exactly the seventeen editor fields,
    [filepath], [parser] and the two offsets of the range when there is one:
    any other property of the editor settings is dropped.  A copied field
    that the editor settings lack is still an own property of the options,
    holding [undefined]. *)
Theorem fallback_options_own_properties
    (D : string -> option Obj -> Completion (option Obj))
    (fileName parser : string) (vsCodeConfig : loc) (prettierVersion : string)
    (resolveConfigOptions : loc) (rangeFormattingOptions : option loc)
    (rng : option RangeFormattingOptions) (st st' : State)
    (r : Result.t) (l : loc) :
  D fileName (Some (obj_at st resolveConfigOptions)) = Normal None ->
  live_arguments st vsCodeConfig resolveConfigOptions rangeFormattingOptions ->
  range_argument st rangeFormattingOptions rng ->
  getPrettierOptions D fileName parser vsCodeConfig prettierVersion
    resolveConfigOptions rangeFormattingOptions st = (Normal r, st') ->
  Result.options r = Some l ->
  (forall k,
     is_Some (obj_at st' l !! k) <->
     In k editor_fields \/ k = "filepath" \/ k = "parser" \/
     (is_Some rng /\ (k = "rangeStart" \/ k = "rangeEnd"))) /\
  (forall k,
     In k copied_fields -> obj_at st vsCodeConfig !! k = None ->
     obj_at st' l !! k = Some VUndefined).
Proof.
  intros HD Hlive Hrng Hrun Hl.
  destruct (getPrettierOptions_returned D _ _ _ _ _ _ _ _ _ _ Hlive Hrun Hl)
    as (c & b & HD' & _ & _ & _ & _ & Hobj).
  rewrite HD in HD'. injection HD' as <-. cbn [is_null or_empty] in Hobj.
  rewrite (range_layer_argument _ _ _ Hrng) in Hobj. rewrite Hobj.
  split.
  - intros k. rewrite is_Some_spread4, injected_is_Some,
      range_object_is_Some, vsOpts_object_is_Some.
    split; intros H; [| tauto].
    destruct H as [H | H]; [now apply lookup_empty_is_Some in H | tauto].
  - intros k Hk Hnone.
    assert (He : In k editor_fields).
    { unfold editor_fields. apply in_or_app. now right. }
    destruct (editor_field_not_injected _ He) as (H1 & H2 & H3 & H4).
    rewrite lookup_spread4, lookup_empty, range_layer_other,
      injected_other, (vsOpts_object_copied _ _ _ Hk) by assumption.
    unfold get. now rewrite Hnone.
Qed.

Lemma fallback_options_own_properties_witness :
  (forall k,
     is_Some (obj_at Sample.run_fallback_v1.2 4 !! k) <->
     In k editor_fields \/ k = "filepath" \/ k = "parser" \/
     (is_Some (Some Sample.range) /\ (k = "rangeStart" \/ k = "rangeEnd"))) /\
  (forall k,
     In k copied_fields -> obj_at Sample.st0 0 !! k = None ->
     obj_at Sample.run_fallback_v1.2 4 !! k = Some VUndefined).
Proof.
  apply (fallback_options_own_properties
           Sample.none_found "a.js" "babel" 0 "1.19.0" 1 (Some 2)
           (Some Sample.range) Sample.st0 Sample.run_fallback_v1.2
           (Result.mk (Some 4) None) 4).
  - reflexivity.
  - vm_compute. lia.
  - reflexivity.
  - vm_compute. reflexivity.
  - reflexivity.
Defined.

(** X2: with a discovered configuration the options own the discovered fields,
    [filepath], [parser] and the offsets of the range, and nothing else: no
    editor field comes through, and the values fixed for versions below
    2.0.0 are not applied either. *)
Theorem discovered_options_own_properties
    (D : string -> option Obj -> Completion (option Obj))
    (fileName parser : string) (vsCodeConfig : loc) (prettierVersion : string)
    (resolveConfigOptions : loc) (rangeFormattingOptions : option loc)
    (rng : option RangeFormattingOptions) (st st' : State) (c : Obj)
    (r : Result.t) (l : loc) :
  D fileName (Some (obj_at st resolveConfigOptions)) = Normal (Some c) ->
  live_arguments st vsCodeConfig resolveConfigOptions rangeFormattingOptions ->
  range_argument st rangeFormattingOptions rng ->
  getPrettierOptions D fileName parser vsCodeConfig prettierVersion
    resolveConfigOptions rangeFormattingOptions st = (Normal r, st') ->
  Result.options r = Some l ->
  (forall k,
     is_Some (obj_at st' l !! k) <->
     is_Some (c !! k) \/ k = "filepath" \/ k = "parser" \/
     (is_Some rng /\ (k = "rangeStart" \/ k = "rangeEnd"))) /\
  (forall k,
     In k editor_fields -> c !! k = None -> obj_at st' l !! k = None).
Proof.
  intros HD Hlive Hrng Hrun Hl.
  destruct (getPrettierOptions_returned D _ _ _ _ _ _ _ _ _ _ Hlive Hrun Hl)
    as (c' & b & HD' & _ & _ & _ & _ & Hobj).
  rewrite HD in HD'. injection HD' as <-. cbn [is_null or_empty] in Hobj.
  rewrite (range_layer_argument _ _ _ Hrng) in Hobj. rewrite Hobj.
  split.
  - intros k. rewrite is_Some_spread4, injected_is_Some, range_object_is_Some.
    split; intros H; [| tauto].
    destruct H as [H | [H | [H | H]]]; try tauto.
    now apply lookup_empty_is_Some in H.
  - intros k Hk Hnone.
    destruct (editor_field_not_injected _ Hk) as (H1 & H2 & H3 & H4).
    rewrite lookup_spread4, Hnone, range_layer_other, injected_other
      by assumption.
    apply lookup_empty.
Qed.

Lemma discovered_options_own_properties_witness :
  (forall k,
     is_Some (obj_at Sample.run_found.2 4 !! k) <->
     is_Some (Sample.project !! k) \/ k = "filepath" \/ k = "parser" \/
     (is_Some (Some Sample.range) /\ (k = "rangeStart" \/ k = "rangeEnd"))) /\
  (forall k,
     In k editor_fields -> Sample.project !! k = None ->
     obj_at Sample.run_found.2 4 !! k = None).
Proof.
  apply (discovered_options_own_properties
           Sample.found "a.js" "babel" 0 "2.3.1" 1 (Some 2)
           (Some Sample.range) Sample.st0 Sample.run_found.2 Sample.project
           (Result.mk (Some 4) None) 4).
  - reflexivity.
  - vm_compute. lia.
  - reflexivity.
  - vm_compute. reflexivity.
  - reflexivity.
Defined.

(** ** What the merged options depend on *)

(** X3: with a discovered configuration, neither the editor settings nor the
    prettier version reach the result: two calls that differ only in
    [vsCodeConfig] and in [prettierVersion] return options with the same
    properties and log the same line. *)
Theorem discovered_options_ignore_editor_and_version
    (D : string -> option Obj -> Completion (option Obj))
    (fileName parser : string) (vsCodeConfig vsCodeConfig' : loc)
    (prettierVersion prettierVersion' : string)
    (resolveConfigOptions : loc) (rangeFormattingOptions : option loc)
    (st st1 st2 : State) (c : Obj) (r1 r2 : Result.t) :
  D fileName (Some (obj_at st resolveConfigOptions)) = Normal (Some c) ->
  getPrettierOptions D fileName parser vsCodeConfig prettierVersion
    resolveConfigOptions rangeFormattingOptions st = (Normal r1, st1) ->
  getPrettierOptions D fileName parser vsCodeConfig' prettierVersion'
    resolveConfigOptions rangeFormattingOptions st = (Normal r2, st2) ->
  exists l,
    Result.options r1 = Some l /\ Result.options r2 = Some l /\
    obj_at st1 l = obj_at st2 l /\ log st1 = log st2.
Proof.
  intros HD H1 H2.
  destruct (Semver.gte prettierVersion "2.0.0") as [b1 | e] eqn:Hv1.
  2: { rewrite (getPrettierOptions_invalid D _ parser vsCodeConfig _ _
                  rangeFormattingOptions _ _ _ HD Hv1) in H1.
       discriminate. }
  destruct (Semver.gte prettierVersion' "2.0.0") as [b2 | e] eqn:Hv2.
  2: { rewrite (getPrettierOptions_invalid D _ parser vsCodeConfig' _ _
                  rangeFormattingOptions _ _ _ HD Hv2) in H2.
       discriminate. }
  rewrite (getPrettierOptions_found D _ parser vsCodeConfig _ _
             rangeFormattingOptions _ _ _ HD Hv1) in H1.
  rewrite (getPrettierOptions_found D _ parser vsCodeConfig' _ _
             rangeFormattingOptions _ _ _ HD Hv2) in H2.
  injection H1 as <- <-. injection H2 as <- <-.
  exists (S (length (heap st))). repeat split.
Qed.

Lemma discovered_options_ignore_editor_and_version_witness :
  exists l,
    Result.options (Result.mk (Some 4) None) = Some l /\
    Result.options (Result.mk (Some 4) None) = Some l /\
    obj_at Sample.run_found.2 l
    = obj_at (getPrettierOptions Sample.found "a.js" "babel" 1 "1.19.0" 1
                (Some 2) Sample.st0).2 l /\
    log Sample.run_found.2
    = log (getPrettierOptions Sample.found "a.js" "babel" 1 "1.19.0" 1
             (Some 2) Sample.st0).2.
Proof.
  apply (discovered_options_ignore_editor_and_version
           Sample.found "a.js" "babel" 0 1 "2.3.1" "1.19.0" 1 (Some 2)
           Sample.st0 _ _ Sample.project).
  - reflexivity.
  - vm_compute. reflexivity.
  - vm_compute. reflexivity.
Defined.

(** X4: the offsets of a range request reach the options unless the discovered
    configuration defines [rangeStart] or [rangeEnd] itself; without a range
    argument the options have the offsets only if discovery supplies them. *)
Theorem range_offsets_unless_discovered
    (D : string -> option Obj -> Completion (option Obj))
    (fileName parser : string) (vsCodeConfig : loc) (prettierVersion : string)
    (resolveConfigOptions : loc) (rangeFormattingOptions : option loc)
    (rng : option RangeFormattingOptions) (st st' : State)
    (r : Result.t) (l : loc) :
  live_arguments st vsCodeConfig resolveConfigOptions rangeFormattingOptions ->
  range_argument st rangeFormattingOptions rng ->
  getPrettierOptions D fileName parser vsCodeConfig prettierVersion
    resolveConfigOptions rangeFormattingOptions st = (Normal r, st') ->
  Result.options r = Some l ->
  exists c,
    D fileName (Some (obj_at st resolveConfigOptions)) = Normal c /\
    obj_at st' l !! "rangeStart"
    = match or_empty c !! "rangeStart" with
      | Some v => Some v
      | None => (fun x => VNum (rangeStart x)) <$> rng
      end /\
    obj_at st' l !! "rangeEnd"
    = match or_empty c !! "rangeEnd" with
      | Some v => Some v
      | None => (fun x => VNum (rangeEnd x)) <$> rng
      end.
Proof.
  intros Hlive Hrng Hrun Hl.
  destruct (getPrettierOptions_returned D _ _ _ _ _ _ _ _ _ _ Hlive Hrun Hl)
    as (c & b & HD & _ & _ & _ & _ & Hobj).
  exists c. split; [exact HD |].
  rewrite (range_layer_argument _ _ _ Hrng) in Hobj. rewrite Hobj.
  rewrite !lookup_spread4.
  assert (Hs : from_option range_object ∅ rng !! "rangeStart"
               = (fun x => VNum (rangeStart x)) <$> rng).
  { destruct rng as [x |]; cbn; [unfold range_object; lookup_literal |].
    apply lookup_empty. }
  assert (He : from_option range_object ∅ rng !! "rangeEnd"
               = (fun x => VNum (rangeEnd x)) <$> rng).
  { destruct rng as [x |]; cbn; [unfold range_object; lookup_literal |].
    apply lookup_empty. }
  rewrite Hs, He, !injected_other by discriminate.
  assert (Hed : forall k,
            ~ In k editor_fields ->
            (if is_null c then vsOpts_object b (obj_at st vsCodeConfig) else ∅)
              !! k = None).
  { intros k Hk. destruct (is_null c); [| apply lookup_empty].
    apply eq_None_not_Some. now rewrite vsOpts_object_is_Some. }
  assert (Hnot : forall k, k = "rangeStart" \/ k = "rangeEnd" ->
            ~ In k editor_fields).
  { intros k Hk Hin. destruct (editor_field_not_injected _ Hin)
      as (_ & _ & H3 & H4). tauto. }
  rewrite !Hed by (apply Hnot; tauto).
  split.
  - destruct (or_empty c !! "rangeStart"); [reflexivity |]. now destruct rng.
  - destruct (or_empty c !! "rangeEnd"); [reflexivity |]. now destruct rng.
Qed.

Lemma range_offsets_unless_discovered_witness :
  exists c,
    Sample.found "a.js" (Some (obj_at Sample.st0 1)) = Normal c /\
    obj_at Sample.run_found.2 4 !! "rangeStart"
    = match or_empty c !! "rangeStart" with
      | Some v => Some v
      | None => (fun x => VNum (rangeStart x)) <$> Some Sample.range
      end /\
    obj_at Sample.run_found.2 4 !! "rangeEnd"
    = match or_empty c !! "rangeEnd" with
      | Some v => Some v
      | None => (fun x => VNum (rangeEnd x)) <$> Some Sample.range
      end.
Proof.
  apply (range_offsets_unless_discovered
           Sample.found "a.js" "babel" 0 "2.3.1" 1 (Some 2)
           (Some Sample.range) Sample.st0 Sample.run_found.2
           (Result.mk (Some 4) None) 4).
  - vm_compute. lia.
  - reflexivity.
  - vm_compute. reflexivity.
  - reflexivity.
Defined.

(** X5: the injected [filepath] and [parser] sit below the range layer as well:
    for any object passed as [rangeFormattingOptions], each of the two is
    the discovered value if there is one, else the value the range object
    carries if it has one, else the call argument. *)
Theorem filepath_and_parser_layering
    (D : string -> option Obj -> Completion (option Obj))
    (fileName parser : string) (vsCodeConfig : loc) (prettierVersion : string)
    (resolveConfigOptions : loc) (rangeFormattingOptions : option loc)
    (st st' : State) (r : Result.t) (l : loc) :
  live_arguments st vsCodeConfig resolveConfigOptions rangeFormattingOptions ->
  getPrettierOptions D fileName parser vsCodeConfig prettierVersion
    resolveConfigOptions rangeFormattingOptions st = (Normal r, st') ->
  Result.options r = Some l ->
  exists c,
    D fileName (Some (obj_at st resolveConfigOptions)) = Normal c /\
    obj_at st' l !! "filepath"
    = Some (default
              (default (VStr fileName)
                 (range_layer st rangeFormattingOptions !! "filepath"))
              (or_empty c !! "filepath")) /\
    obj_at st' l !! "parser"
    = Some (default
              (default (VStr parser)
                 (range_layer st rangeFormattingOptions !! "parser"))
              (or_empty c !! "parser")).
Proof.
  intros Hlive Hrun Hl.
  destruct (getPrettierOptions_returned D _ _ _ _ _ _ _ _ _ _ Hlive Hrun Hl)
    as (c & b & HD & _ & _ & _ & _ & Hobj).
  exists c. split; [exact HD |]. rewrite Hobj, !lookup_spread4.
  rewrite injected_filepath, injected_parser.
  destruct (or_empty c !! "filepath"), (or_empty c !! "parser"),
    (range_layer st rangeFormattingOptions !! "filepath"),
    (range_layer st rangeFormattingOptions !! "parser");
    split; reflexivity.
Qed.

Lemma filepath_and_parser_layering_witness :
  exists c,
    Sample.none_found "a.js" (Some (obj_at Sample.st_wide 1)) = Normal c /\
    obj_at (getPrettierOptions Sample.none_found "a.js" "babel" 0 "2.3.1" 1
              (Some 2) Sample.st_wide).2 4 !! "filepath"
    = Some (default
              (default (VStr "a.js")
                 (range_layer Sample.st_wide (Some 2) !! "filepath"))
              (or_empty c !! "filepath")) /\
    obj_at (getPrettierOptions Sample.none_found "a.js" "babel" 0 "2.3.1" 1
              (Some 2) Sample.st_wide).2 4 !! "parser"
    = Some (default
              (default (VStr "babel")
                 (range_layer Sample.st_wide (Some 2) !! "parser"))
              (or_empty c !! "parser")).
Proof.
  apply (filepath_and_parser_layering
           Sample.none_found "a.js" "babel" 0 "2.3.1" 1 (Some 2)
           Sample.st_wide _ (Result.mk (Some 4) None) 4).
  - vm_compute. lia.
  - vm_compute. reflexivity.
  - reflexivity.
Defined.

(** A range object that carries a [filepath] replaces the file name. *)
Example wide_range_overrides_filepath :
  get (obj_at (getPrettierOptions Sample.none_found "a.js" "babel" 0 "2.3.1"
                 1 (Some 2) Sample.st_wide).2 4) "filepath" = VStr "b.js".
Proof. vm_compute. reflexivity. Qed.

(** X6: a configuration that is found but empty is not "none found": the
    options are the injected pair under the range layer, the editor settings
    are not consulted and the line logged is the one for a local
    configuration. *)
Theorem empty_configuration_is_not_fallback
    (D : string -> option Obj -> Completion (option Obj))
    (fileName parser : string) (vsCodeConfig : loc) (prettierVersion : string)
    (resolveConfigOptions : loc) (rangeFormattingOptions : option loc)
    (st st' : State) (r : Result.t) (l : loc) :
  D fileName (Some (obj_at st resolveConfigOptions)) = Normal (Some ∅) ->
  live_arguments st vsCodeConfig resolveConfigOptions rangeFormattingOptions ->
  getPrettierOptions D fileName parser vsCodeConfig prettierVersion
    resolveConfigOptions rangeFormattingOptions st = (Normal r, st') ->
  Result.options r = Some l ->
  obj_at st' l
  = range_layer st rangeFormattingOptions ∪ injected fileName parser /\
  log st' = log st ++ [LOCAL_CONFIGURATION].
Proof.
  intros HD Hlive Hrun Hl.
  destruct (getPrettierOptions_returned D _ _ _ _ _ _ _ _ _ _ Hlive Hrun Hl)
    as (c & b & HD' & _ & _ & Hlog & _ & Hobj).
  rewrite HD in HD'. injection HD' as <-.
  cbn [is_null or_empty] in Hobj, Hlog. split; [| exact Hlog].
  rewrite Hobj. apply map_eq. intros k.
  rewrite lookup_spread4, lookup_union, !lookup_empty.
  destruct (range_layer st rangeFormattingOptions !! k),
    (injected fileName parser !! k); reflexivity.
Qed.

Lemma empty_configuration_is_not_fallback_witness :
  obj_at (getPrettierOptions (fun _ _ => Normal (Some ∅)) "a.js" "babel" 0
            "1.19.0" 1 (Some 2) Sample.st0).2 4
  = range_layer Sample.st0 (Some 2) ∪ injected "a.js" "babel" /\
  log (getPrettierOptions (fun _ _ => Normal (Some ∅)) "a.js" "babel" 0
         "1.19.0" 1 (Some 2) Sample.st0).2
  = log Sample.st0 ++ [LOCAL_CONFIGURATION].
Proof.
  apply (empty_configuration_is_not_fallback
           (fun _ _ => Normal (Some ∅)) "a.js" "babel" 0 "1.19.0" 1 (Some 2)
           Sample.st0 _ (Result.mk (Some 4) None) 4).
  - reflexivity.
  - vm_compute. lia.
  - vm_compute. reflexivity.
  - reflexivity.
Defined.

(** ** The three methods together *)

Ltac close_outcomes :=
  repeat split; intros;
  repeat match goal with
         | H : _ /\ _ |- _ => destruct H
         | H : exists _, _ |- _ => destruct H
         | H : is_Some None |- _ => now apply is_Some_None in H
         | H : _ ++ [_] = _ ++ [_] |- _ => apply app_inv_head in H
         end;
  try discriminate; try congruence; eauto.

(** X7: [resolveConfig] never returns a configuration together with an error:
    an error comes with a [null] configuration.  Both are absent exactly
    when discovery found nothing. *)
Theorem resolveConfig_config_excludes_error
    (D : string -> option Obj -> Completion (option Obj))
    (filePath : string) (options : option loc) (st st' : State)
    (r : IResolveConfigResult) :
  resolveConfig D filePath options st = (Normal r, st') ->
  (is_Some (error r) -> config r = None) /\
  (config r = None /\ error r = None <->
   D filePath (obj_at st <$> options) = Normal None) /\
  (forall c, config r = Some c <->
   D filePath (obj_at st <$> options) = Normal (Some c)) /\
  (forall e, error r = Some e <->
   D filePath (obj_at st <$> options) = Throw e).
Proof.
  rewrite resolveConfig_run. intros [= <- <-].
  destruct (D filePath _) as [[c |] | e]; cbn [config error];
    close_outcomes.
Qed.

Lemma resolveConfig_config_excludes_error_witness :
  (is_Some (error (mkResolved None (Some Sample.broken))) ->
   config (mkResolved None (Some Sample.broken)) = None) /\
  (config (mkResolved None (Some Sample.broken)) = None /\
   error (mkResolved None (Some Sample.broken)) = None <->
   Sample.failing "a.js" (obj_at Sample.st0 <$> Some 1) = Normal None) /\
  (forall c, config (mkResolved None (Some Sample.broken)) = Some c <->
   Sample.failing "a.js" (obj_at Sample.st0 <$> Some 1) = Normal (Some c)) /\
  (forall e, error (mkResolved None (Some Sample.broken)) = Some e <->
   Sample.failing "a.js" (obj_at Sample.st0 <$> Some 1) = Throw e).
Proof.
  apply (resolveConfig_config_excludes_error
           Sample.failing "a.js" (Some 1) Sample.st0 Sample.st0).
  reflexivity.
Defined.

(** X8: [checkHasPrettierConfig] asks discovery without options (line 92).
    When discovery answers that question as it answers the one
    [getPrettierOptions] asks, the two methods agree: [true] goes with
    options and the line for a local configuration, [false] with options
    and the fallback line, an exception with the error result.  Unlike
    [getPrettierOptions], the check logs nothing and leaves the store as it
    was. *)
Theorem checkHasPrettierConfig_agrees_with_getPrettierOptions
    (D : string -> option Obj -> Completion (option Obj))
    (filePath parser : string) (vsCodeConfig : loc) (prettierVersion : string)
    (ver : Semver.SemVer)
    (resolveConfigOptions : loc) (rangeFormattingOptions : option loc)
    (st : State) :
  D filePath None = D filePath (Some (obj_at st resolveConfigOptions)) ->
  Semver.parse prettierVersion = Some ver ->
  let has := checkHasPrettierConfig D filePath st in
  let run := getPrettierOptions D filePath parser vsCodeConfig prettierVersion
               resolveConfigOptions rangeFormattingOptions st in
  has.2 = st /\
  (has.1 = Normal true <->
   (exists l, run.1 = Normal (Result.mk (Some l) None)) /\
   log run.2 = log st ++ [LOCAL_CONFIGURATION]) /\
  (has.1 = Normal false <->
   (exists l, run.1 = Normal (Result.mk (Some l) None)) /\
   log run.2 = log st ++ [NO_LOCAL_CONFIGURATION]) /\
  (forall e, has.1 = Throw e <-> run.1 = Normal (Result.mk None (Some e))).
Proof.
  intros Hsame Hver. cbv zeta.
  rewrite checkHasPrettierConfig_run. cbn [fst snd].
  pose proof (getPrettierOptions_cases D filePath parser vsCodeConfig
                prettierVersion resolveConfigOptions rangeFormattingOptions st)
    as Hc.
  rewrite <- Hsame, (gte_valid _ _ Hver) in Hc.
  split; [reflexivity |].
  destruct (D filePath None) as [[c |] | e]; cbn [is_null negb] in *.
  - destruct Hc as (o1 & o2 & ->). cbn [fst snd log]. close_outcomes.
  - destruct Hc as (o1 & o2 & ->). cbn [fst snd log]. close_outcomes.
  - rewrite Hc. cbn [fst snd log]. close_outcomes.
Qed.

Lemma checkHasPrettierConfig_agrees_with_getPrettierOptions_witness :
  (checkHasPrettierConfig Sample.found "a.js" Sample.st0).2 = Sample.st0 /\
  ((checkHasPrettierConfig Sample.found "a.js" Sample.st0).1 = Normal true <->
   (exists l, Sample.run_found.1 = Normal (Result.mk (Some l) None)) /\
   log Sample.run_found.2 = log Sample.st0 ++ [LOCAL_CONFIGURATION]) /\
  ((checkHasPrettierConfig Sample.found "a.js" Sample.st0).1 = Normal false <->
   (exists l, Sample.run_found.1 = Normal (Result.mk (Some l) None)) /\
   log Sample.run_found.2 = log Sample.st0 ++ [NO_LOCAL_CONFIGURATION]) /\
  (forall e,
     (checkHasPrettierConfig Sample.found "a.js" Sample.st0).1 = Throw e <->
     Sample.run_found.1 = Normal (Result.mk None (Some e))).
Proof.
  apply (checkHasPrettierConfig_agrees_with_getPrettierOptions
           Sample.found "a.js" "babel" 0 "2.3.1" (Semver.mkSemVer 2 3 1 [] [])
           1 (Some 2) Sample.st0).
  - reflexivity.
  - reflexivity.
Defined.

(** Without that agreement of discovery the two methods can differ: a
    discovery that needs the [editorconfig] option finds the project
    configuration for [getPrettierOptions] and nothing for the check. *)
Example check_and_options_can_disagree :
  (checkHasPrettierConfig Sample.with_editorconfig "a.js" Sample.st0).1
  = Normal false /\
  log (getPrettierOptions Sample.with_editorconfig "a.js" "babel" 0 "2.3.1" 1
         (Some 2) Sample.st0).2 = [LOCAL_CONFIGURATION].
Proof. vm_compute. split; reflexivity. Qed.

(** X9: calling [getPrettierOptions] again with the same arguments, right after
    a call that returned options, returns options with the same properties
    in another new object; the first object is left as it was, and the same
    line is logged a second time.  Nothing is cached between calls. *)
Theorem second_call_builds_equal_options
    (D : string -> option Obj -> Completion (option Obj))
    (fileName parser : string) (vsCodeConfig : loc) (prettierVersion : string)
    (resolveConfigOptions : loc) (rangeFormattingOptions : option loc)
    (st st1 : State) (r1 : Result.t) (l1 : loc) :
  live_arguments st vsCodeConfig resolveConfigOptions rangeFormattingOptions ->
  getPrettierOptions D fileName parser vsCodeConfig prettierVersion
    resolveConfigOptions rangeFormattingOptions st = (Normal r1, st1) ->
  Result.options r1 = Some l1 ->
  exists r2 st2 l2 line,
    getPrettierOptions D fileName parser vsCodeConfig prettierVersion
      resolveConfigOptions rangeFormattingOptions st1 = (Normal r2, st2) /\
    Result.options r2 = Some l2 /\ Result.error r2 = None /\
    l2 <> l1 /\
    obj_at st2 l2 = obj_at st1 l1 /\
    obj_at st2 l1 = obj_at st1 l1 /\
    log st1 = log st ++ [line] /\
    log st2 = log st ++ [line; line].
Proof.
  intros Hlive Hrun Hl.
  destruct (getPrettierOptions_options_inv D _ _ _ _ _ _ _ _ _ _ Hrun Hl)
    as (c & b & HD & Hv & _ & ->).
  rewrite (getPrettierOptions_closed_form D _ parser _ _ _ _ _ _ _ HD Hv Hlive)
    in Hrun.
  injection Hrun as _ <-.
  destruct st as [h lg]. cbn [heap log] in *.
  destruct Hlive as (Hvs & Hrc & Hrange). cbn [heap] in Hvs, Hrc, Hrange.
  set (E := if is_null c then vsOpts_object b (obj_at (mkState h lg) vsCodeConfig)
            else ∅) in *.
  set (O := spread [E; injected fileName parser;
                    range_layer (mkState h lg) rangeFormattingOptions;
                    or_empty c]) in *.
  set (line := if is_null c then NO_LOCAL_CONFIGURATION
               else LOCAL_CONFIGURATION) in *.
  set (st1 := mkState (h ++ [E; O]) (lg ++ [line])).
  assert (Hlive1 : live_arguments st1 vsCodeConfig resolveConfigOptions
                     rangeFormattingOptions).
  { unfold live_arguments, st1. cbn [heap]. rewrite length_app.
    cbn [length]. destruct rangeFormattingOptions; repeat split; lia. }
  assert (HD1 : D fileName (Some (obj_at st1 resolveConfigOptions)) = Normal c).
  { unfold st1. now rewrite (obj_at_frame h _ _ lg _ Hrc). }
  pose proof (getPrettierOptions_closed_form D _ parser _ _ _ _ _ _ _
                HD1 Hv Hlive1) as Hrun2.
  cbv zeta in Hrun2. fold line in Hrun2.
  unfold st1 in Hrun2 at 2 3 4 5 6.
  rewrite (obj_at_frame h _ _ lg _ Hvs) in Hrun2.
  rewrite (range_layer_frame h _ _ lg _ Hrange) in Hrun2.
  fold E in Hrun2. fold O in Hrun2. cbn [heap log] in Hrun2.
  eexists _, _, _, line. split; [exact Hrun2 |].
  split; [reflexivity |]. split; [reflexivity |].
  assert (Hlen : length (h ++ [E; O]) = S (S (length h))).
  { rewrite length_app. cbn. lia. }
  split; [rewrite Hlen; lia |].
  assert (Hat : forall x y lg', obj_at (mkState (x ++ [y; O]) lg')
                                  (S (length x)) = O).
  { intros x y lg'. unfold obj_at. cbn [heap].
    replace (S (length x)) with (length x + 1) by lia.
    rewrite lookup_app_r by lia.
    now replace (length x + 1 - length x) with 1 by lia. }
  split; [| split; [| split]].
  - unfold st1. now rewrite !Hat.
  - unfold st1. apply obj_at_frame. rewrite Hlen. lia.
  - reflexivity.
  - unfold st1. cbn [log]. now rewrite <- app_assoc.
Qed.

Lemma second_call_builds_equal_options_witness :
  exists r2 st2 l2 line,
    getPrettierOptions Sample.none_found "a.js" "babel" 0 "1.19.0" 1 (Some 2)
      Sample.run_fallback_v1.2 = (Normal r2, st2) /\
    Result.options r2 = Some l2 /\ Result.error r2 = None /\
    l2 <> 4 /\
    obj_at st2 l2 = obj_at Sample.run_fallback_v1.2 4 /\
    obj_at st2 4 = obj_at Sample.run_fallback_v1.2 4 /\
    log Sample.run_fallback_v1.2 = log Sample.st0 ++ [line] /\
    log st2 = log Sample.st0 ++ [line; line].
Proof.
  apply (second_call_builds_equal_options
           Sample.none_found "a.js" "babel" 0 "1.19.0" 1 (Some 2)
           Sample.st0 Sample.run_fallback_v1.2 (Result.mk (Some 4) None) 4).
  - vm_compute. lia.
  - vm_compute. reflexivity.
  - reflexivity.
Defined.
